(** * Atem RTM shim: the connection state machine and its two backends

    A shallow embedding of [native/include/atem_rtm.h],
    [native/src/atem_rtm.cpp] (the in-process simulator) and the parts of
    [native/src/atem_rtm_real.cpp] (the vendor-backed adapter) that the
    properties below talk about.

    The C API works on an opaque [AtemRtmClient*].  The embedding keeps that
    shape: a world holds the heap of live client objects and the trace of
    effects that leave the shim (callback invocations in the simulator, SDK
    requests in the vendor-backed adapter); every API function is a
    computation over the world that returns the C return value. *)

From Stdlib Require Import ZArith String List.
From stdpp Require Import base option gmap strings list.

Local Open Scope Z_scope.
Local Open Scope string_scope.

(** ** Pointers *)

(** Object and function pointers are addresses; address 0 is [nullptr]. *)
Abbreviation ptr := N (only parsing).

Definition nullptr : ptr := 0%N.

Definition is_null (p : ptr) : bool := N.eqb p nullptr.

(** A [const char*] is either [NULL] or points at a NUL-terminated string;
    only the characters pointed at are observable here. *)
Abbreviation cstr := (option string) (only parsing).

(** [value ? std::string(value) : std::string()] *)
Definition copy_or_empty (value : cstr) : string :=
  match value with
  | Some s => s
  | None => EmptyString
  end.

(** ** The memory monad *)

Section Memory.
Context {Obj Ev : Type}.

(** [heap]: the objects allocated with [new] and not yet deleted.
    [trace]: the effects performed so far, oldest first. *)
Record World := mkWorld { heap : gmap N Obj; trace : list Ev }.

(** [None] stands for undefined behaviour (a dangling handle). *)
Definition M (A : Type) : Type := World -> option (A * World).

Definition ret {A} (a : A) : M A := fun w => Some (a, w).

Definition bind {A B} (m : M A) (k : A -> M B) : M B :=
  fun w =>
    match m w with
    | Some (a, w') => k a w'
    | None => None
    end.

Definition upd (p : ptr) (o : Obj) (w : World) : World :=
  {| heap := <[p := o]> (heap w); trace := trace w |}.

(** [*p] *)
Definition load (p : ptr) : M Obj :=
  fun w =>
    match heap w !! p with
    | Some o => Some (o, w)
    | None => None
    end.

(** [p->field = v], as an update [f] of the pointee *)
Definition modify (p : ptr) (f : Obj -> Obj) : M unit :=
  fun w =>
    match heap w !! p with
    | Some o => Some (tt, upd p (f o) w)
    | None => None
    end.

(** [new Obj()]: a non-null address that is not in use. *)
Definition new (init : Obj) : M ptr :=
  fun w =>
    let p := fresh ({[nullptr]} ∪ dom (heap w)) in
    Some (p, upd p init w).

(** [delete p] *)
Definition delete_obj (p : ptr) : M unit :=
  fun w =>
    match heap w !! p with
    | Some _ => Some (tt, {| heap := delete p (heap w); trace := trace w |})
    | None => None
    end.

(** An effect that leaves the shim is appended to the trace. *)
Definition logged (e : Ev) (w : World) : World :=
  {| heap := heap w; trace := trace w ++ [e] |}.

Definition emit (e : Ev) : M unit :=
  fun w => Some (tt, logged e w).
End Memory.

Arguments World : clear implicits.
Arguments M : clear implicits.

Notation "x <- m ;; k" := (bind m (fun x => k))
  (at level 100, m at next level, k at level 200, right associativity,
   format "'[v' x  <-  m  ;; '/' k ']'").
Notation "m ;;; k" := (bind m (fun _ => k))
  (at level 100, k at level 200, right associativity,
   format "'[v' m  ;;; '/' k ']'").

(** ** atem_rtm.h *)

(** [AtemRtmConfig]: four borrowed C strings, taken to stay as they are
    while a client refers to them.  The fields carry the prefix [cfg_]
    because [AtemRtmClient] has a member called [token] too. *)
Record AtemRtmConfig := mkConfig {
  cfg_app_id : cstr;
  cfg_token : cstr;
  cfg_channel : cstr;
  cfg_client_id : cstr
}.

(** One call of an [AtemRtmMessageCallback]: the function called and its
    three arguments. *)
Record Delivery := mkDelivery {
  dlv_callback : N;
  from_client_id : string;
  payload : string;
  dlv_user_data : N
}.

(** ** atem_rtm.cpp: the simulator backend *)

Module Sim.

Record AtemRtmClient := mkClient {
  config : AtemRtmConfig;
  callback : N;
  user_data : N;
  connected : bool;
  logged_in : bool;
  channel_joined : bool;
  user_id : string;
  channel_id : string;
  token : string
}.

(** The member initialisers of the struct: what [new AtemRtmClient()]
    yields. *)
Definition fresh_client : AtemRtmClient :=
  {| config := mkConfig None None None None;
     callback := nullptr;
     user_data := nullptr;
     connected := false;
     logged_in := false;
     channel_joined := false;
     user_id := EmptyString;
     channel_id := EmptyString;
     token := EmptyString |}.

(** Member assignments [client->field = v]. *)
Definition set_config v c :=
  mkClient v (callback c) (user_data c) (connected c) (logged_in c)
           (channel_joined c) (user_id c) (channel_id c) (token c).
Definition set_callback v c :=
  mkClient (config c) v (user_data c) (connected c) (logged_in c)
           (channel_joined c) (user_id c) (channel_id c) (token c).
Definition set_user_data v c :=
  mkClient (config c) (callback c) v (connected c) (logged_in c)
           (channel_joined c) (user_id c) (channel_id c) (token c).
Definition set_connected v c :=
  mkClient (config c) (callback c) (user_data c) v (logged_in c)
           (channel_joined c) (user_id c) (channel_id c) (token c).
Definition set_logged_in v c :=
  mkClient (config c) (callback c) (user_data c) (connected c) v
           (channel_joined c) (user_id c) (channel_id c) (token c).
Definition set_channel_joined v c :=
  mkClient (config c) (callback c) (user_data c) (connected c) (logged_in c)
           v (user_id c) (channel_id c) (token c).
Definition set_user_id v c :=
  mkClient (config c) (callback c) (user_data c) (connected c) (logged_in c)
           (channel_joined c) v (channel_id c) (token c).
Definition set_channel_id v c :=
  mkClient (config c) (callback c) (user_data c) (connected c) (logged_in c)
           (channel_joined c) (user_id c) v (token c).
Definition set_token v c :=
  mkClient (config c) (callback c) (user_data c) (connected c) (logged_in c)
           (channel_joined c) (user_id c) (channel_id c) v.

(** The simulator's only effect is calling the registered callback. *)
Abbreviation world := (World AtemRtmClient Delivery).
Abbreviation api := (M AtemRtmClient Delivery).

(** [client->callback(from, payload, client->user_data)]; the callback is
    the application's code and is not entered, its call is recorded. *)
Definition call_callback (cb : N) (from body : string) (ud : N) : api unit :=
  emit (mkDelivery cb from body ud).

Definition atem_rtm_create
    (config_ : option AtemRtmConfig) (callback_ user_data_ : N) : api N :=
  match config_ with
  | None => ret nullptr
  | Some cfg =>
      client <- new fresh_client ;;
      modify client (set_config cfg) ;;;
      modify client (set_callback callback_) ;;;
      modify client (set_user_data user_data_) ;;;
      modify client (set_connected false) ;;;
      ret client
  end.

Definition atem_rtm_destroy (client : N) : api unit :=
  if is_null client then ret tt
  else delete_obj client.

Definition atem_rtm_connect (client : N) : api Z :=
  if is_null client then ret (-1)
  else
    modify client (set_connected true) ;;;
    modify client (set_logged_in false) ;;;
    modify client (set_channel_joined false) ;;;
    ret 0.

Definition atem_rtm_disconnect (client : N) : api Z :=
  if is_null client then ret (-1)
  else
    modify client (set_connected false) ;;;
    modify client (set_logged_in false) ;;;
    modify client (set_channel_joined false) ;;;
    ret 0.

Definition atem_rtm_login (client : N) (token_ user_id_ : cstr) : api Z :=
  if is_null client then ret (-1)
  else
    c <- load client ;;
    if negb (connected c) then ret (-1)
    else
      match user_id_ with
      | None => ret (-1)
      | Some uid =>
          modify client
            (set_token (match token_ with
                        | Some t => t
                        | None => EmptyString
                        end)) ;;;
          modify client (set_user_id uid) ;;;
          modify client (set_logged_in true) ;;;
          ret 0
      end.

Definition atem_rtm_join_channel (client : N) (channel_id_ : cstr) : api Z :=
  if is_null client then ret (-1)
  else
    c <- load client ;;
    if negb (logged_in c) then ret (-1)
    else
      match channel_id_ with
      | None => ret (-1)
      | Some ch =>
          modify client (set_channel_id ch) ;;;
          modify client (set_channel_joined true) ;;;
          ret 0
      end.

Definition atem_rtm_publish_channel (client : N) (payload_ : cstr) : api Z :=
  if is_null client then ret (-1)
  else
    c <- load client ;;
    if negb (connected c) then ret (-1)
    else if negb (channel_joined c) then ret (-1)
    else
      match payload_ with
      | None => ret (-1)
      | Some body =>
          (if negb (is_null (callback c)) then
             call_callback (callback c)
               (match cfg_client_id (config c) with
                | Some id => id
                | None => "self"
                end)
               body (user_data c)
           else ret tt) ;;;
          ret 0
      end.

Definition atem_rtm_send_peer
    (client : N) (target_client_id payload_ : cstr) : api Z :=
  if is_null client then ret (-1)
  else
    c <- load client ;;
    if negb (connected c) then ret (-1)
    else
      match target_client_id, payload_ with
      | Some target, Some body =>
          (if negb (is_null (callback c)) then
             call_callback (callback c) target body (user_data c)
           else ret tt) ;;;
          ret 0
      | _, _ => ret (-1)
      end.

End Sim.


(** ** atem_rtm_real.cpp: the vendor-backed adapter *)

Module Real.

(** [agora::rtm::SubscribeOptions], as far as the adapter fills it in: a
    field it does not assign keeps whatever the SDK's constructor gave it and
    is [None] here. *)
Record SubscribeOptions := mkSubscribeOptions {
  withMessage : option bool;
  withPresence : option bool;
  withMetadata : option bool;
  withLock : option bool
}.

(** The two channel types and the message type the adapter uses. *)
Inductive RTM_CHANNEL_TYPE :=
| RTM_CHANNEL_TYPE_MESSAGE
| RTM_CHANNEL_TYPE_USER.

Inductive RTM_MESSAGE_TYPE :=
| RTM_MESSAGE_TYPE_STRING.

(** [agora::rtm::PublishOptions]: the two fields the adapter assigns. *)
Record PublishOptions := mkPublishOptions {
  channelType : RTM_CHANNEL_TYPE;
  messageType : RTM_MESSAGE_TYPE
}.

(** What the adapter asks of the vendor SDK client, or of the application's
    callback.  The SDK is an external collaborator: its calls are recorded,
    their integer results and the request ids they write are ignored by the
    adapter and do not appear. *)
Inductive Effect :=
| SdkLogin (rtm_client : N) (tok : string)
| Callback (d : Delivery)
| SdkRelease (rtm_client : N)
| SdkLogout (rtm_client : N)
| SdkSubscribe (rtm_client : N) (channelName : string)
    (options : SubscribeOptions)
| SdkPublish (rtm_client : N) (channelName message : string) (length : N)
    (options : PublishOptions)
| SdkRenewToken (rtm_client : N) (tok : string).

Record AtemRtmClient := mkClient {
  rtm_client : N;
  callback : N;
  user_data : N;
  app_id : string;
  token : string;
  channel : string;
  client_id : string
}.

Definition fresh_client : AtemRtmClient :=
  {| rtm_client := nullptr; callback := nullptr; user_data := nullptr;
     app_id := EmptyString; token := EmptyString; channel := EmptyString;
   client_id := EmptyString |}.

Definition set_rtm_client v c :=
  mkClient v (callback c) (user_data c) (app_id c) (token c) (channel c)
           (client_id c).
Definition set_callback v c :=
  mkClient (rtm_client c) v (user_data c) (app_id c) (token c) (channel c)
           (client_id c).
Definition set_user_data v c :=
  mkClient (rtm_client c) (callback c) v (app_id c) (token c) (channel c)
           (client_id c).
Definition set_app_id v c :=
  mkClient (rtm_client c) (callback c) (user_data c) v (token c) (channel c)
           (client_id c).
Definition set_token v c :=
  mkClient (rtm_client c) (callback c) (user_data c) (app_id c) v (channel c)
           (client_id c).
Definition set_channel v c :=
  mkClient (rtm_client c) (callback c) (user_data c) (app_id c) (token c) v
           (client_id c).
Definition set_client_id v c :=
  mkClient (rtm_client c) (callback c) (user_data c) (app_id c) (token c)
           (channel c) v.

Abbreviation world := (World AtemRtmClient Effect).
Abbreviation api := (M AtemRtmClient Effect).

(** [created] is what [agora::rtm::createAgoraRtmClient] hands back: the SDK
    client pointer and the error code it writes.  Where the source
    replaces a null string by the empty one, [copy_or_empty] is used. *)
Definition atem_rtm_create
    (config_ : option AtemRtmConfig) (callback_ user_data_ : N)
    (created : N * Z) : api N :=
  match config_ with
  | None => ret nullptr
  | Some cfg =>
      match cfg_app_id cfg, cfg_client_id cfg with
      | Some app, Some id =>
          client <- new fresh_client ;;
          modify client (set_callback callback_) ;;;
          modify client (set_user_data user_data_) ;;;
          modify client (set_app_id app) ;;;
          modify client (set_token (copy_or_empty (cfg_token cfg))) ;;;
          modify client (set_channel (copy_or_empty (cfg_channel cfg))) ;;;
          modify client (set_client_id id) ;;;
          modify client (set_rtm_client (fst created)) ;;;
          if is_null (fst created) || negb (Z.eqb (snd created) 0) then
            delete_obj client ;;;
            ret nullptr
          else ret client
      | _, _ => ret nullptr
      end
  end.

(** "In RTM 2.x, connection is established during login.  This is a no-op
    but kept for API compatibility." *)
Definition atem_rtm_connect (client : N) : api Z :=
  if is_null client then ret (-1) else ret 0.

(** [token && token[0] != '\0'] *)
Definition nonempty (s : cstr) : bool :=
  match s with
  | Some (String _ _) => true
  | _ => false
  end.

Definition atem_rtm_login (client : N) (token_ user_id_ : cstr) : api Z :=
  if is_null client then ret (-1)
  else
    c <- load client ;;
    if is_null (rtm_client c) then ret (-1)
    else
      let tok := if nonempty token_ then copy_or_empty token_ else token c in
      emit (SdkLogin (rtm_client c) tok) ;;;
      ret 0.

(** [IRtmEventHandler::onMessageEvent]: the SDK reports a message from
    [publisher]; null strings are passed on as empty ones.  (The mutex held
    around the call is not modelled.) *)
Definition onMessageEvent (this : N) (publisher message : cstr) : api unit :=
  c <- load this ;;
  if is_null (callback c) then ret tt
  else
    emit (Callback (mkDelivery (callback c) (copy_or_empty publisher)
                      (copy_or_empty message) (user_data c))).

(** [strlen]: model strings hold the characters before the terminator. *)
Definition strlen (s : string) : N := N.of_nat (String.length s).

Definition atem_rtm_destroy (client : N) : api unit :=
  if is_null client then ret tt
  else
    c <- load client ;;
    (if negb (is_null (rtm_client c)) then
       emit (SdkRelease (rtm_client c)) ;;;
       modify client (set_rtm_client nullptr)
     else ret tt) ;;;
    delete_obj client.

Definition atem_rtm_disconnect (client : N) : api Z :=
  if is_null client then ret (-1)
  else
    c <- load client ;;
    if is_null (rtm_client c) then ret (-1)
    else
      emit (SdkLogout (rtm_client c)) ;;;
      ret 0.

Definition atem_rtm_join_channel (client : N) (channel_id : cstr) : api Z :=
  if is_null client then ret (-1)
  else
    c <- load client ;;
    if is_null (rtm_client c) then ret (-1)
    else
      match channel_id with
      | None => ret (-1)
      | Some ch =>
          let opts :=
            mkSubscribeOptions (Some true) (Some true) (Some false)
              (Some false) in
          emit (SdkSubscribe (rtm_client c) ch opts) ;;;
          ret 0
      end.

Definition atem_rtm_publish_channel (client : N) (payload_ : cstr) : api Z :=
  if is_null client then ret (-1)
  else
    c <- load client ;;
    if is_null (rtm_client c) then ret (-1)
    else
      match payload_ with
      | None => ret (-1)
      | Some body =>
          let opts :=
            mkPublishOptions RTM_CHANNEL_TYPE_MESSAGE RTM_MESSAGE_TYPE_STRING in
          emit (SdkPublish (rtm_client c) (channel c) body (strlen body)
                  opts) ;;;
          ret 0
      end.

Definition atem_rtm_send_peer
    (client : N) (target_client_id payload_ : cstr) : api Z :=
  if is_null client then ret (-1)
  else
    c <- load client ;;
    if is_null (rtm_client c) then ret (-1)
    else
      match target_client_id, payload_ with
      | Some target, Some body =>
          let opts :=
            mkPublishOptions RTM_CHANNEL_TYPE_USER RTM_MESSAGE_TYPE_STRING in
          emit (SdkPublish (rtm_client c) target body (strlen body) opts) ;;;
          ret 0
      | _, _ => ret (-1)
      end.

Definition atem_rtm_set_token (client : N) (token_ : cstr) : api Z :=
  if is_null client then ret (-1)
  else
    c <- load client ;;
    if is_null (rtm_client c) then ret (-1)
    else
      match token_ with
      | None => ret (-1)
      | Some tok =>
          emit (SdkRenewToken (rtm_client c) tok) ;;;
          ret 0
      end.

(** The topic is only checked for null (and logged): "we perform a regular
    channel subscribe here as a reasonable fallback". *)
Definition atem_rtm_subscribe_topic
    (client : N) (channel_ topic : cstr) : api Z :=
  if is_null client then ret (-1)
  else
    c <- load client ;;
    if is_null (rtm_client c) then ret (-1)
    else
      match channel_, topic with
      | Some ch, Some _ =>
          let opts := mkSubscribeOptions (Some true) (Some false) None None in
          emit (SdkSubscribe (rtm_client c) ch opts) ;;;
          ret 0
      | _, _ => ret (-1)
      end.

(** The int-returning calls of the adapter, with their arguments. *)
Inductive call :=
| Connect
| Disconnect
| Login (token_ user_id_ : option string)
| JoinChannel (channel_id : option string)
| PublishChannel (payload_ : option string)
| SendPeer (target_client_id payload_ : option string)
| SetToken (token_ : option string)
| SubscribeTopic (channel_ topic : option string).

Definition do_call (client : N) (k : call) : api Z :=
  match k with
  | Connect => atem_rtm_connect client
  | Disconnect => atem_rtm_disconnect client
  | Login t u => atem_rtm_login client t u
  | JoinChannel ch => atem_rtm_join_channel client ch
  | PublishChannel body => atem_rtm_publish_channel client body
  | SendPeer target body => atem_rtm_send_peer client target body
  | SetToken t => atem_rtm_set_token client t
  | SubscribeTopic ch topic => atem_rtm_subscribe_topic client ch topic
  end.

Fixpoint do_calls (client : N) (ks : list call) : api (list Z) :=
  match ks with
  | [] => ret []
  | k :: ks' =>
      r <- do_call client k ;;
      rs <- do_calls client ks' ;;
      ret (r :: rs)
  end.

(** Which argument of a call, if any, is a null string that the call
    checks.  [Login] checks none. *)
Definition has_null_argument (k : call) : bool :=
  match k with
  | Connect | Disconnect | Login _ _ => false
  | JoinChannel None | PublishChannel None | SetToken None => true
  | SendPeer None _ | SendPeer _ None => true
  | SubscribeTopic None _ | SubscribeTopic _ None => true
  | _ => false
  end.

End Real.

(** ** Call sequences on a simulator handle *)

(** The six state-machine and send operations of the simulator, with their
    arguments. *)
Inductive call :=
| Connect
| Disconnect
| Login (token_ user_id_ : option string)
| JoinChannel (channel_id_ : option string)
| PublishChannel (payload_ : option string)
| SendPeer (target_client_id payload_ : option string).

Definition do_call (client : N) (k : call) : Sim.api Z :=
  match k with
  | Connect => Sim.atem_rtm_connect client
  | Disconnect => Sim.atem_rtm_disconnect client
  | Login t u => Sim.atem_rtm_login client t u
  | JoinChannel ch => Sim.atem_rtm_join_channel client ch
  | PublishChannel body => Sim.atem_rtm_publish_channel client body
  | SendPeer target body => Sim.atem_rtm_send_peer client target body
  end.

(** Runs the calls in order and collects their return values. *)
Fixpoint do_calls (client : N) (ks : list call) : Sim.api (list Z) :=
  match ks with
  | [] => ret []
  | k :: ks' =>
      r <- do_call client k ;;
      rs <- do_calls client ks' ;;
      ret (r :: rs)
  end.

(** ** The connection states, read off the three flags *)

Inductive ConnectionState :=
| Disconnected
| Connected
| Authenticated
| ChannelJoined.

(** The furthest state whose flag is set. *)
Definition state_of (c : Sim.AtemRtmClient) : ConnectionState :=
  if Sim.channel_joined c then ChannelJoined
  else if Sim.logged_in c then Authenticated
  else if Sim.connected c then Connected
  else Disconnected.

(** [channel_joined] implies [logged_in], and [logged_in] implies
    [connected]. *)
Definition state_ordered (c : Sim.AtemRtmClient) : bool :=
  implb (Sim.channel_joined c) (Sim.logged_in c)
  && implb (Sim.logged_in c) (Sim.connected c).

(** The handle [p] points at the live client [c]. *)
Definition live (w : Sim.world) (p : N) (c : Sim.AtemRtmClient) : Prop :=
  p <> nullptr /\ heap w !! p = Some c.

(** ** Sample inputs *)

(** The configuration of the scenario: no token, channel "c1", participant
    "u1". *)
Definition cfg_u1 : AtemRtmConfig :=
  mkConfig (Some "A") None (Some "c1") (Some "u1").

(** The same with a default token. *)
Definition cfg_u1_token : AtemRtmConfig :=
  mkConfig (Some "A") (Some "cfgtok") (Some "c1") (Some "u1").

(** Nothing allocated, nothing delivered. *)
Definition world0 : Sim.world := mkWorld ∅ [].

(** A callback and a context pointer of the application. *)
Definition cb7 : N := 7%N.
Definition ctx9 : N := 9%N.

(** [atem_rtm_create(&cfg, cb, ctx)] followed by the calls [ks] on the handle
    it returned. *)
Definition create_then
    (cfg : AtemRtmConfig) (cb ctx : N) (ks : list call)
    : Sim.api (N * list Z) :=
  p <- Sim.atem_rtm_create (Some cfg) cb ctx ;;
  rs <- do_calls p ks ;;
  ret (p, rs).

(** The client that [atem_rtm_create] leaves behind: configuration, callback
    and context as given, all flags clear, all strings empty. *)
Definition created_client
    (cfg : AtemRtmConfig) (cb ctx : N) : Sim.AtemRtmClient :=
  Sim.mkClient cfg cb ctx false false false EmptyString EmptyString EmptyString.

(** The client of the scenario after [connect], after [login("tok", "u1")]
    and after [join_channel("c1")]. *)
Definition client_connected : Sim.AtemRtmClient :=
  Sim.mkClient cfg_u1 cb7 ctx9 true false false
    EmptyString EmptyString EmptyString.

Definition client_authenticated : Sim.AtemRtmClient :=
  Sim.mkClient cfg_u1 cb7 ctx9 true true false "u1" EmptyString "tok".

Definition client_joined : Sim.AtemRtmClient :=
  Sim.mkClient cfg_u1 cb7 ctx9 true true true "u1" "c1" "tok".

(** The world after [create(cfg_u1, cb7, ctx9)] and [connect]: one client,
    at address 1, in state Connected. *)
Definition world_connected : Sim.world :=
  upd 1%N client_connected world0.

(** ... after [login("tok", "u1")]: state Authenticated. *)
Definition world_authenticated : Sim.world :=
  upd 1%N client_authenticated world0.

(** ... after [join_channel("c1")]: state ChannelJoined. *)
Definition world_joined : Sim.world :=
  upd 1%N client_joined world0.

(** The world after [create(cfg_u1_token, cb7, ctx9)] and [connect]: the
    configuration carries the default token "cfgtok". *)
Definition world_connected_token : Sim.world :=
  upd 1%N
    (Sim.mkClient cfg_u1_token cb7 ctx9 true false false
       EmptyString EmptyString EmptyString)
    world0.

(** ** What a call may do to a live client *)

(** A delivery made on behalf of a client: the function called is the
    client's callback, it is not null, and the context passed is the
    client's. *)
Definition delivery_of (c : Sim.AtemRtmClient) (d : Delivery) : Prop :=
  dlv_callback d = Sim.callback c
  /\ dlv_callback d <> nullptr
  /\ dlv_user_data d = Sim.user_data c.

(** The outcome [res] of running something on the live client [c] behind
    [p] in world [w]: it returned, the handle is still live, the flags are
    still ordered if they were, callback and context are the ones given at
    creation, and whatever was delivered went to that callback. *)
Definition step_ok {A : Type}
    (w : Sim.world) (p : N) (c : Sim.AtemRtmClient)
    (res : option (A * Sim.world)) : Prop :=
  exists r w' c' ds,
    res = Some (r, w')
    /\ live w' p c'
    /\ (state_ordered c = true -> state_ordered c' = true)
    /\ Sim.callback c' = Sim.callback c
    /\ Sim.user_data c' = Sim.user_data c
    /\ trace w' = (trace w ++ ds)%list
    /\ Forall (delivery_of c) ds.

(** The four shapes a simulator call on a live handle can take: rejected
    with nothing changed; accepted with the client updated but its
    configuration, callback and context kept; accepted with nothing changed;
    accepted with one delivery to the client's non-null callback. *)
Inductive call_shape (w : Sim.world) (p : N) (c : Sim.AtemRtmClient)
  : option (Z * Sim.world) -> Prop :=
| shape_rejected : call_shape w p c (Some (-1, w))
| shape_updated c' :
    Sim.config c' = Sim.config c ->
    Sim.callback c' = Sim.callback c ->
    Sim.user_data c' = Sim.user_data c ->
    call_shape w p c (Some (0, upd p c' w))
| shape_silent : call_shape w p c (Some (0, w))
| shape_delivered from body :
    Sim.callback c <> nullptr ->
    call_shape w p c
      (Some (0, logged (mkDelivery (Sim.callback c) from body
                          (Sim.user_data c)) w)).

(** ** The deliveries a run must make *)

(** The sender the simulator names for a channel message of client [c]. *)
Definition publish_sender (c : Sim.AtemRtmClient) : string :=
  match cfg_client_id (Sim.config c) with
  | Some id => id
  | None => "self"
  end.

(** Read off the calls and their return values: one delivery for each
    publish or send that returned 0, in call order, addressed to the callback
    [Sim.callback c] with the context [Sim.user_data c]. *)
Fixpoint expected_deliveries
    (c : Sim.AtemRtmClient) (ks : list call) (rs : list Z) : list Delivery :=
  match ks, rs with
  | k :: ks', r :: rs' =>
      (if Z.eqb r 0 then
         match k with
         | PublishChannel (Some body) =>
             [mkDelivery (Sim.callback c) (publish_sender c) body
                (Sim.user_data c)]
         | SendPeer (Some target) (Some body) =>
             [mkDelivery (Sim.callback c) target body (Sim.user_data c)]
         | _ => []
         end
       else [])
      ++ expected_deliveries c ks' rs'
  | _, _ => []
  end.

(** ** The history of a client *)

(** The three calls that move a client forward. *)
Inductive milestone := DidConnect | DidLogin | DidJoin.

(** A connect; a login that names a participant; a join that names a
    channel. *)
Definition reaches (m : milestone) (k : call) : bool :=
  match m, k with
  | DidConnect, Connect => true
  | DidLogin, Login _ (Some _) => true
  | DidJoin, JoinChannel (Some _) => true
  | _, _ => false
  end.

(** The calls [ks] contain calls reaching the milestones [ms], in that order
    (other calls may lie between them). *)
Fixpoint in_order (ms : list milestone) (ks : list call) : bool :=
  match ms, ks with
  | [], _ => true
  | _ :: _, [] => false
  | m :: ms', k :: ks' =>
      if reaches m k then in_order ms' ks' else in_order ms ks'
  end.

(** ** The vendor-backed handle *)

(** The handle [p] points at the live adapter client [c], which holds an SDK
    client. *)
Definition ready (w : Real.world) (p : N) (c : Real.AtemRtmClient) : Prop :=
  p <> nullptr /\ heap w !! p = Some c /\ Real.rtm_client c <> nullptr.

(** The adapter client that a successful [atem_rtm_create] leaves behind. *)
Definition real_created_client
    (cfg : AtemRtmConfig) (app id : string) (cb ctx sdk : N)
    : Real.AtemRtmClient :=
  Real.mkClient sdk cb ctx app (copy_or_empty (cfg_token cfg))
    (copy_or_empty (cfg_channel cfg)) id.

(** [create] followed by calls on the handle it returned, vendor-backed. *)
Definition real_create_then
    (cfg : AtemRtmConfig) (cb ctx : N) (created : N * Z)
    (ks : list Real.call) : Real.api (N * list Z) :=
  p <- Real.atem_rtm_create (Some cfg) cb ctx created ;;
  rs <- Real.do_calls p ks ;;
  ret (p, rs).

(** An empty vendor-backed world. *)
Definition real_world0 : Real.world := mkWorld ∅ [].

(** An SDK client pointer. *)
Definition sdk5 : N := 5%N.

(** The adapter world after a successful create with [cfg_u1_token]. *)
Definition real_world_ready : Real.world :=
  upd 1%N (real_created_client cfg_u1_token "A" "u1" cb7 ctx9 sdk5) real_world0.

(** The return value of an adapter call on a handle that holds an SDK
    client. *)
Definition real_code (k : Real.call) : Z :=
  if Real.has_null_argument k then -1 else 0.

(** The same call, made on the vendor-backed adapter. *)
Definition to_real (k : call) : Real.call :=
  match k with
  | Connect => Real.Connect
  | Disconnect => Real.Disconnect
  | Login t u => Real.Login t u
  | JoinChannel ch => Real.JoinChannel ch
  | PublishChannel body => Real.PublishChannel body
  | SendPeer target body => Real.SendPeer target body
  end.

(** ** Facts about the memory monad *)

Section MemoryFacts.
Context {Obj Ev : Type}.
Implicit Types (w : World Obj Ev) (p : N) (o : Obj).

Lemma is_null_false p : is_null p = false <-> p <> nullptr.
Proof. unfold is_null. apply N.eqb_neq. Qed.

Lemma heap_upd p o w : heap (upd p o w) !! p = Some o.
Proof. unfold upd; simpl. apply lookup_insert_eq. Qed.

Lemma heap_upd_ne p q o w : p <> q -> heap (upd p o w) !! q = heap w !! q.
Proof. intros Hne. unfold upd; simpl. by apply lookup_insert_ne. Qed.

Lemma trace_upd p o w : trace (upd p o w) = trace w.
Proof. reflexivity. Qed.

Lemma upd_upd p o1 o2 w : upd p o2 (upd p o1 w) = upd p o2 w.
Proof. unfold upd; simpl. by rewrite insert_insert_eq. Qed.

Lemma bind_Some {A B} (m : M Obj Ev A) (k : A -> M Obj Ev B) w a w' :
  m w = Some (a, w') -> bind m k w = k a w'.
Proof. intros H. unfold bind. by rewrite H. Qed.

Lemma load_Some p o w : heap w !! p = Some o -> load p w = Some (o, w).
Proof. intros H. unfold load. by rewrite H. Qed.

Lemma modify_Some p f o w :
  heap w !! p = Some o -> modify p f w = Some (tt, upd p (f o) w).
Proof. intros H. unfold modify. by rewrite H. Qed.

(** [new] hands out an address that is neither null nor in use. *)
Lemma new_fresh init w :
  exists p, new init w = Some (p, upd p init w)
            /\ p <> nullptr /\ heap w !! p = None.
Proof.
  unfold new. set (X := {[nullptr]} ∪ dom (heap w)).
  exists (fresh X). split; [reflexivity|].
  pose proof (is_fresh X) as Hf.
  split.
  - intros Heq. apply Hf. rewrite Heq. unfold X. set_solver.
  - apply not_elem_of_dom. intros Hin. apply Hf. unfold X. set_solver.
Qed.
End MemoryFacts.

Arguments upd : simpl never.

(** Runs a straight-line body on a handle known to be live. *)
Ltac run :=
  repeat first
    [ rewrite heap_upd
    | rewrite upd_upd
    | erewrite bind_Some by
        (first [ apply modify_Some | apply load_Some | reflexivity ];
         rewrite ?heap_upd; eassumption || reflexivity)
    | progress cbn beta iota delta [negb andb] ].

(** ** Closed forms of the simulator's calls on a live handle *)

Section SimLive.
Variables (w : Sim.world) (p : N) (c : Sim.AtemRtmClient).
Hypothesis Hlive : live w p c.

Lemma connect_live :
  Sim.atem_rtm_connect p w =
  Some (0, upd p (Sim.set_channel_joined false
                    (Sim.set_logged_in false (Sim.set_connected true c))) w).
Proof.
  destruct Hlive as [Hp Hc]. unfold Sim.atem_rtm_connect.
  apply is_null_false in Hp. rewrite Hp. run. reflexivity.
Qed.
Lemma disconnect_live :
  Sim.atem_rtm_disconnect p w =
  Some (0, upd p (Sim.set_channel_joined false
                    (Sim.set_logged_in false (Sim.set_connected false c))) w).
Proof.
  destruct Hlive as [Hp Hc]. unfold Sim.atem_rtm_disconnect.
  apply is_null_false in Hp. rewrite Hp. run. reflexivity.
Qed.

Lemma login_live token_ user_id_ :
  Sim.atem_rtm_login p token_ user_id_ w =
  if Sim.connected c then
    match user_id_ with
    | Some uid =>
        Some (0, upd p (Sim.set_logged_in true
                          (Sim.set_user_id uid
                             (Sim.set_token
                                (match token_ with
                                 | Some t => t
                                 | None => EmptyString
                                 end)
                                c))) w)
    | None => Some (-1, w)
    end
  else Some (-1, w).
Proof.
  destruct Hlive as [Hp Hc]. unfold Sim.atem_rtm_login.
  apply is_null_false in Hp. rewrite Hp. run.
  destruct (Sim.connected c); [|reflexivity].
  destruct user_id_; [|reflexivity]. run. reflexivity.
Qed.

Lemma join_channel_live channel_id_ :
  Sim.atem_rtm_join_channel p channel_id_ w =
  if Sim.logged_in c then
    match channel_id_ with
    | Some ch =>
        Some (0, upd p (Sim.set_channel_joined true
                          (Sim.set_channel_id ch c)) w)
    | None => Some (-1, w)
    end
  else Some (-1, w).
Proof.
  destruct Hlive as [Hp Hc]. unfold Sim.atem_rtm_join_channel.
  apply is_null_false in Hp. rewrite Hp. run.
  destruct (Sim.logged_in c); [|reflexivity].
  destruct channel_id_; [|reflexivity]. run. reflexivity.
Qed.

(** The sender the simulator reports for a channel message. *)
Lemma publish_channel_live payload_ :
  Sim.atem_rtm_publish_channel p payload_ w =
  if Sim.connected c && Sim.channel_joined c then
    match payload_ with
    | Some body =>
        Some (0, if is_null (Sim.callback c) then w
                 else logged (mkDelivery (Sim.callback c)
                                (match cfg_client_id (Sim.config c) with
                                 | Some id => id
                                 | None => "self"
                                 end)
                                body (Sim.user_data c)) w)
    | None => Some (-1, w)
    end
  else Some (-1, w).
Proof.
  destruct Hlive as [Hp Hc]. unfold Sim.atem_rtm_publish_channel.
  apply is_null_false in Hp. rewrite Hp. run.
  destruct (Sim.connected c); [|reflexivity].
  destruct (Sim.channel_joined c); [|reflexivity].
  destruct payload_; [|reflexivity].
  unfold bind, Sim.call_callback, emit, ret.
  destruct (is_null (Sim.callback c)); reflexivity.
Qed.

Lemma send_peer_live target_client_id payload_ :
  Sim.atem_rtm_send_peer p target_client_id payload_ w =
  if Sim.connected c then
    match target_client_id, payload_ with
    | Some target, Some body =>
        Some (0, if is_null (Sim.callback c) then w
                 else logged (mkDelivery (Sim.callback c) target body
                                (Sim.user_data c)) w)
    | _, _ => Some (-1, w)
    end
  else Some (-1, w).
Proof.
  destruct Hlive as [Hp Hc]. unfold Sim.atem_rtm_send_peer.
  apply is_null_false in Hp. rewrite Hp. run.
  destruct (Sim.connected c); [|reflexivity].
  destruct target_client_id; [|reflexivity].
  destruct payload_; [|reflexivity].
  unfold bind, Sim.call_callback, emit, ret.
  destruct (is_null (Sim.callback c)); reflexivity.
Qed.
End SimLive.

(** [atem_rtm_create] with a non-null configuration allocates a client in
    state Disconnected that holds the configuration, the callback and the
    context. *)
Lemma create_live (cfg : AtemRtmConfig) (cb ctx : N) (w : Sim.world) :
  exists p,
    Sim.atem_rtm_create (Some cfg) cb ctx w =
    Some (p, upd p (created_client cfg cb ctx) w)
    /\ p <> nullptr /\ heap w !! p = None.
Proof.
  destruct (new_fresh Sim.fresh_client w) as (p & Hnew & Hp & Hfree).
  exists p. split; [|done].
  unfold Sim.atem_rtm_create. rewrite (bind_Some _ _ _ _ _ Hnew).
  run. reflexivity.
Qed.

(** ** One call, and many, on a live handle *)

Lemma live_upd w p c c' : live w p c -> live (upd p c' w) p c'.
Proof. intros [Hp _]. split; [done | apply heap_upd]. Qed.

Section Steps.
Variables (w : Sim.world) (p : N) (c : Sim.AtemRtmClient).
Hypothesis Hlive : live w p c.

Lemma step_ok_same {A} (r : A) : step_ok w p c (Some (r, w)).
Proof. exists r, w, c, []. rewrite app_nil_r. by split_and!. Qed.

Lemma step_ok_upd {A} (r : A) c' :
  (state_ordered c = true -> state_ordered c' = true) ->
  Sim.callback c' = Sim.callback c ->
  Sim.user_data c' = Sim.user_data c ->
  step_ok w p c (Some (r, upd p c' w)).
Proof.
  intros H1 H2 H3. exists r, (upd p c' w), c', [].
  rewrite app_nil_r. split_and!; eauto using live_upd.
Qed.

Lemma step_ok_logged {A} (r : A) from body :
  is_null (Sim.callback c) = false ->
  step_ok w p c
    (Some (r, logged (mkDelivery (Sim.callback c) from body
                        (Sim.user_data c)) w)).
Proof.
  intros Hcb. eexists r, _, c, [_].
  split_and!; [reflexivity | exact Hlive | done.. |].
  repeat constructor. simpl. by apply is_null_false.
Qed.

Lemma do_call_step k : step_ok w p c (do_call p k w).
Proof.
  destruct k as [| | t u | ch | body | target body]; simpl.
  - rewrite (connect_live _ _ _ Hlive). by apply step_ok_upd.
  - rewrite (disconnect_live _ _ _ Hlive). by apply step_ok_upd.
  - rewrite (login_live _ _ _ Hlive).
    destruct (Sim.connected c) eqn:Hc; [destruct u|]; auto using step_ok_same.
    apply step_ok_upd; try done.
    unfold state_ordered; simpl. rewrite Hc.
    by destruct (Sim.channel_joined c).
  - rewrite (join_channel_live _ _ _ Hlive).
    destruct (Sim.logged_in c) eqn:Hc; [destruct ch|]; auto using step_ok_same.
    apply step_ok_upd; try done.
    unfold state_ordered; simpl. rewrite Hc.
    by destruct (Sim.channel_joined c).
  - rewrite (publish_channel_live _ _ _ Hlive).
    destruct (Sim.connected c && Sim.channel_joined c); [destruct body|];
      auto using step_ok_same.
    destruct (is_null (Sim.callback c)) eqn:Hcb;
      auto using step_ok_same, step_ok_logged.
  - rewrite (send_peer_live _ _ _ Hlive).
    destruct (Sim.connected c); [destruct target, body|];
      auto using step_ok_same.
    destruct (is_null (Sim.callback c)) eqn:Hcb;
      auto using step_ok_same, step_ok_logged.
Qed.
End Steps.

Lemma do_calls_cons p k ks (w : Sim.world) r w' :
  do_call p k w = Some (r, w') ->
  do_calls p (k :: ks) w =
  match do_calls p ks w' with
  | Some (rs, w'') => Some (r :: rs, w'')
  | None => None
  end.
Proof.
  intros H. simpl. rewrite (bind_Some _ _ _ _ _ H).
  unfold bind, ret. by destruct (do_calls p ks w') as [[rs w'']|].
Qed.

(** The same for a whole sequence of calls. *)
Lemma do_calls_steps p ks : forall w c,
  live w p c -> step_ok w p c (do_calls p ks w).
Proof.
  induction ks as [|k ks IH]; intros w c Hl.
  - by apply step_ok_same.
  - destruct (do_call_step w p c Hl k)
      as (r & w1 & c1 & ds1 & Hrun & Hl1 & Hord1 & Hcb1 & Hud1 & Htr1 & Hds1).
    destruct (IH w1 c1 Hl1)
      as (rs & w2 & c2 & ds2 & Hrun2 & Hl2 & Hord2 & Hcb2 & Hud2 & Htr2 & Hds2).
    exists (r :: rs), w2, c2, (ds1 ++ ds2)%list.
    rewrite (do_calls_cons _ _ _ _ _ _ Hrun), Hrun2.
    split_and!; try done.
    + auto.
    + congruence.
    + congruence.
    + by rewrite Htr2, Htr1, app_assoc.
    + apply Forall_app. split; [done|].
      eapply Forall_impl; [exact Hds2|].
      intros d (H1 & H2 & H3). unfold delivery_of. by rewrite <- Hcb1, <- Hud1.
Qed.

(** One return value per call. *)
Lemma do_calls_length p ks : forall (w w' : Sim.world) rs,
  do_calls p ks w = Some (rs, w') -> length rs = length ks.
Proof.
  induction ks as [|k ks IH]; intros w w' rs; simpl.
  - unfold ret. by intros [= <- _].
  - unfold bind at 1. destruct (do_call p k w) as [[r w1]|]; [|done].
    unfold bind at 1. destruct (do_calls p ks w1) as [[rs1 w2]|] eqn:H; [|done].
    unfold ret. intros [= <- _]. simpl. f_equal. eauto.
Qed.

Lemma live_upd_fresh (w : Sim.world) p c : p <> nullptr -> live (upd p c w) p c.
Proof. intros Hp. split; [done | apply heap_upd]. Qed.

(** A handle returned by a successful [atem_rtm_create] is live and points
    at a client with all three flags clear. *)
Lemma create_Some cfg cb ctx (w w0 : Sim.world) p :
  Sim.atem_rtm_create (Some cfg) cb ctx w = Some (p, w0) ->
  w0 = upd p (created_client cfg cb ctx) w
  /\ live w0 p (created_client cfg cb ctx).
Proof.
  destruct (create_live cfg cb ctx w) as (p' & -> & Hp & _).
  intros [= <- <-]. split; [done | by apply live_upd_fresh].
Qed.

Lemma state_ordered_spec c :
  state_ordered c = true <->
  (Sim.channel_joined c = true -> Sim.logged_in c = true)
  /\ (Sim.logged_in c = true -> Sim.connected c = true).
Proof.
  unfold state_ordered.
  destruct (Sim.channel_joined c), (Sim.logged_in c), (Sim.connected c);
    simpl; intuition congruence.
Qed.

Lemma create_then_Some cfg cb ctx ks (w w0 w' : Sim.world) p rs :
  Sim.atem_rtm_create (Some cfg) cb ctx w = Some (p, w0) ->
  do_calls p ks w0 = Some (rs, w') ->
  create_then cfg cb ctx ks w = Some ((p, rs), w').
Proof.
  intros H1 H2. unfold create_then.
  rewrite (bind_Some _ _ _ _ _ H1). by rewrite (bind_Some _ _ _ _ _ H2).
Qed.

(** Steps a run of [do_calls] by one call whose closed form is known. *)
Ltac call_with lem :=
  erewrite do_calls_cons by
    (simpl do_call; erewrite lem by (apply live_upd_fresh; eassumption);
     simpl; reflexivity).

(** ** The properties *)

(** C1.  Whatever calls are made on a handle returned by
    [atem_rtm_create], every one of them returns a value and afterwards the
    client's flags are ordered: [channel_joined] only with [logged_in], and
    [logged_in] only with [connected].  (The calls [ks] are arbitrary, so
    this holds after each call of a longer sequence.) *)
Theorem state_order_invariant
    (cfg : AtemRtmConfig) (cb ctx : N) (w w0 : Sim.world) (p : N)
    (ks : list call) :
  Sim.atem_rtm_create (Some cfg) cb ctx w = Some (p, w0) ->
  exists rs w' c,
    do_calls p ks w0 = Some (rs, w')
    /\ length rs = length ks
    /\ live w' p c
    /\ (Sim.channel_joined c = true -> Sim.logged_in c = true)
    /\ (Sim.logged_in c = true -> Sim.connected c = true).
Proof.
  intros Hcreate. apply create_Some in Hcreate as [_ Hl].
  destruct (do_calls_steps p ks w0 _ Hl)
    as (rs & w' & c & ds & Hrun & Hl' & Hord & _).
  exists rs, w', c. split; [done|].
  split; [by eapply do_calls_length|]. split; [done|].
  apply state_ordered_spec. by apply Hord.
Qed.

Lemma state_order_invariant_witness :
  Sim.atem_rtm_create (Some cfg_u1) cb7 ctx9 world0
  = Some (1%N, upd 1%N (created_client cfg_u1 cb7 ctx9) world0)
  /\ exists rs w' c,
       do_calls 1%N
         [Connect; Login None (Some "u1"); JoinChannel (Some "c1"); Connect;
          JoinChannel (Some "c2"); Disconnect; PublishChannel (Some "x")]
         (upd 1%N (created_client cfg_u1 cb7 ctx9) world0)
       = Some (rs, w')
       /\ length rs = 7%nat
       /\ live w' 1%N c
       /\ (Sim.channel_joined c = true -> Sim.logged_in c = true)
       /\ (Sim.logged_in c = true -> Sim.connected c = true).
Proof.
  split; [vm_compute; reflexivity|].
  apply (state_order_invariant cfg_u1 cb7 ctx9 world0).
  vm_compute; reflexivity.
Defined.

(** C2.  The scenario: on a client created with app "A", participant "u1",
    channel "c1" and a registered callback, the calls connect,
    login("tok","u1"), publish("x"), join("c1"), publish("x") return
    0, 0, -1, 0, 0.  The first four deliver nothing; the last one calls the
    callback once, with sender "u1", payload "x" and the registered
    context. *)
Theorem scenario_publish_after_join (w : Sim.world) (cb ctx : N) :
  cb <> nullptr ->
  exists p w4 w5,
    create_then cfg_u1 cb ctx
      [Connect; Login (Some "tok") (Some "u1"); PublishChannel (Some "x");
       JoinChannel (Some "c1")] w
    = Some ((p, [0; 0; -1; 0]), w4)
    /\ trace w4 = trace w
    /\ create_then cfg_u1 cb ctx
         [Connect; Login (Some "tok") (Some "u1"); PublishChannel (Some "x");
          JoinChannel (Some "c1"); PublishChannel (Some "x")] w
       = Some ((p, [0; 0; -1; 0; 0]), w5)
    /\ trace w5 = (trace w ++ [mkDelivery cb "u1" "x" ctx])%list.
Proof.
  intros Hcb. apply is_null_false in Hcb.
  destruct (create_live cfg_u1 cb ctx w) as (p & Hcreate & Hp & _).
  eexists p, _, _. split_and!.
  - apply (create_then_Some _ _ _ _ _ _ _ _ _ Hcreate).
    call_with connect_live. call_with login_live.
    call_with publish_channel_live. call_with join_channel_live.
    simpl. reflexivity.
  - reflexivity.
  - apply (create_then_Some _ _ _ _ _ _ _ _ _ Hcreate).
    call_with connect_live. call_with login_live.
    call_with publish_channel_live. call_with join_channel_live.
    call_with publish_channel_live.
    simpl. rewrite Hcb. reflexivity.
  - reflexivity.
Qed.

Lemma scenario_publish_after_join_witness :
  cb7 <> nullptr
  /\ exists p w4 w5,
       create_then cfg_u1 cb7 ctx9
         [Connect; Login (Some "tok") (Some "u1"); PublishChannel (Some "x");
          JoinChannel (Some "c1")] world0
       = Some ((p, [0; 0; -1; 0]), w4)
       /\ trace w4 = trace world0
       /\ create_then cfg_u1 cb7 ctx9
            [Connect; Login (Some "tok") (Some "u1"); PublishChannel (Some "x");
             JoinChannel (Some "c1"); PublishChannel (Some "x")] world0
          = Some ((p, [0; 0; -1; 0; 0]), w5)
       /\ trace w5 = (trace world0 ++ [mkDelivery cb7 "u1" "x" ctx9])%list.
Proof.
  split; [discriminate|].
  apply (scenario_publish_after_join world0 cb7 ctx9). discriminate.
Defined.

(** C3.  [atem_rtm_disconnect] on a live handle returns 0 whatever the
    flags were, clears all three of them (state Disconnected, no membership,
    no authentication), delivers nothing, and a second call right after it
    returns 0 again and leaves the world as it is. *)
Theorem disconnect_resets_idempotent
    (w : Sim.world) (p : N) (c : Sim.AtemRtmClient) :
  live w p c ->
  exists w1 c1,
    Sim.atem_rtm_disconnect p w = Some (0, w1)
    /\ live w1 p c1
    /\ Sim.connected c1 = false
    /\ Sim.logged_in c1 = false
    /\ Sim.channel_joined c1 = false
    /\ state_of c1 = Disconnected
    /\ trace w1 = trace w
    /\ Sim.atem_rtm_disconnect p w1 = Some (0, w1).
Proof.
  intros Hl. pose proof Hl as [Hp _].
  eexists _, _. split; [apply (disconnect_live _ _ _ Hl)|].
  split; [by apply live_upd_fresh|].
  split_and!; try reflexivity.
  erewrite disconnect_live by (by apply live_upd_fresh).
  by rewrite upd_upd.
Qed.

Lemma disconnect_resets_idempotent_witness :
  live world_joined 1%N client_joined
  /\ exists w1 c1,
       Sim.atem_rtm_disconnect 1%N world_joined = Some (0, w1)
       /\ live w1 1%N c1
       /\ Sim.connected c1 = false
       /\ Sim.logged_in c1 = false
       /\ Sim.channel_joined c1 = false
       /\ state_of c1 = Disconnected
       /\ trace w1 = trace world_joined
       /\ Sim.atem_rtm_disconnect 1%N w1 = Some (0, w1).
Proof.
  assert (H : live world_joined 1%N client_joined).
  { split; [discriminate | vm_compute; reflexivity]. }
  split; [exact H|].
  exact (disconnect_resets_idempotent world_joined 1%N _ H).
Defined.

(** C4, as the code has it.  [atem_rtm_connect] on a live handle returns 0
    from every state, the connected ones included, and leaves the client in
    state Connected: [connected] set, [logged_in] and [channel_joined]
    cleared.  It delivers nothing. *)
Theorem connect_accepted_from_any_state
    (w : Sim.world) (p : N) (c : Sim.AtemRtmClient) :
  live w p c ->
  exists w1 c1,
    Sim.atem_rtm_connect p w = Some (0, w1)
    /\ live w1 p c1
    /\ Sim.connected c1 = true
    /\ Sim.logged_in c1 = false
    /\ Sim.channel_joined c1 = false
    /\ state_of c1 = Connected
    /\ trace w1 = trace w.
Proof.
  intros Hl. pose proof Hl as [Hp _].
  eexists _, _. split; [apply (connect_live _ _ _ Hl)|].
  split; [by apply live_upd_fresh|].
  by split_and!.
Qed.

Lemma connect_accepted_from_any_state_witness :
  live world_joined 1%N client_joined
  /\ exists w1 c1,
       Sim.atem_rtm_connect 1%N world_joined = Some (0, w1)
       /\ live w1 1%N c1
       /\ Sim.connected c1 = true
       /\ Sim.logged_in c1 = false
       /\ Sim.channel_joined c1 = false
       /\ state_of c1 = Connected
       /\ trace w1 = trace world_joined.
Proof.
  assert (H : live world_joined 1%N client_joined).
  { split; [discriminate | vm_compute; reflexivity]. }
  split; [exact H|].
  exact (connect_accepted_from_any_state world_joined 1%N _ H).
Defined.

(** C4, as stated, fails: after create and one connect the client is in
    state Connected, and a second connect returns 0, not -1. *)
Lemma connect_twice_returns_0 :
  create_then cfg_u1 cb7 ctx9 [Connect] world0
  = Some ((1%N, [0]), world_connected)
  /\ (exists c, live world_connected 1%N c
                /\ Sim.connected c = true /\ state_of c = Connected)
  /\ Sim.atem_rtm_connect 1%N world_connected = Some (0, world_connected)
  /\ (forall w', Sim.atem_rtm_connect 1%N world_connected <> Some (-1, w')).
Proof.
  assert (H : Sim.atem_rtm_connect 1%N world_connected
              = Some (0, world_connected)) by (vm_compute; reflexivity).
  split_and!.
  - vm_compute; reflexivity.
  - eexists.
    split_and!; [split; [discriminate | vm_compute; reflexivity] | done..].
  - exact H.
  - intros w'. rewrite H. discriminate.
Qed.

(** C5, as the code has it.  [atem_rtm_login] on a live handle returns -1
    exactly when the [connected] flag is clear or [user_id] is null, and then
    changes nothing.  Otherwise, from Connected, Authenticated or
    ChannelJoined alike and with any non-null [user_id], it returns 0 and
    sets [logged_in]; it delivers nothing. *)
Theorem login_rejected_iff
    (w : Sim.world) (p : N) (c : Sim.AtemRtmClient)
    (token_ user_id_ : option string) :
  live w p c ->
  exists r w',
    Sim.atem_rtm_login p token_ user_id_ w = Some (r, w')
    /\ (r = 0 \/ r = -1)
    /\ (r = -1 <-> Sim.connected c = false \/ user_id_ = None)
    /\ (r = -1 -> w' = w)
    /\ (r = 0 ->
        exists c', live w' p c'
                   /\ Sim.connected c' = true
                   /\ Sim.logged_in c' = true
                   /\ Sim.channel_joined c' = Sim.channel_joined c
                   /\ trace w' = trace w).
Proof.
  intros Hl. pose proof Hl as [Hp _].
  rewrite (login_live _ _ _ Hl).
  destruct (Sim.connected c) eqn:Hc; [destruct user_id_ as [uid|]|];
    eexists _, _; (split; [reflexivity|]).
  - split_and!; [by left | split; [done | by intros [|]] | done |].
    intros _. eexists. split; [by apply live_upd_fresh|]. by split_and!.
  - split_and!; [by right | split; [by right | done] | done | done].
  - split_and!; [by right | split; [by left | done] | done | done].
Qed.

Lemma login_rejected_iff_witness :
  live world_authenticated 1%N client_authenticated
  /\ exists r w',
       Sim.atem_rtm_login 1%N (Some "tok2") (Some EmptyString)
         world_authenticated
       = Some (r, w')
       /\ (r = 0 \/ r = -1)
       /\ (r = -1 <->
           Sim.connected client_authenticated = false
           \/ Some EmptyString = None)
       /\ (r = -1 -> w' = world_authenticated)
       /\ (r = 0 ->
           exists c', live w' 1%N c'
                      /\ Sim.connected c' = true
                      /\ Sim.logged_in c' = true
                      /\ Sim.channel_joined c' = false
                      /\ trace w' = trace world_authenticated).
Proof.
  assert (H : live world_authenticated 1%N client_authenticated).
  { split; [discriminate | vm_compute; reflexivity]. }
  split; [exact H|].
  exact (login_rejected_iff world_authenticated 1%N _
           (Some "tok2") (Some EmptyString) H).
Defined.

(** C5, as stated, fails twice.  In state Connected a login with the empty
    participant id returns 0; and in state Authenticated, which is not
    Connected, a login returns 0 as well. *)
Lemma login_accepts_empty_id_and_relogin :
  create_then cfg_u1 cb7 ctx9 [Connect] world0
  = Some ((1%N, [0]), world_connected)
  /\ Sim.atem_rtm_login 1%N (Some "tok") (Some EmptyString) world_connected
     = Some (0, upd 1%N
                  (Sim.mkClient cfg_u1 cb7 ctx9 true true false
                     EmptyString EmptyString "tok")
                  world0)
  /\ create_then cfg_u1 cb7 ctx9
       [Connect; Login (Some "tok") (Some "u1")] world0
     = Some ((1%N, [0; 0]), world_authenticated)
  /\ (exists c, live world_authenticated 1%N c /\ state_of c = Authenticated)
  /\ Sim.atem_rtm_login 1%N (Some "tok") (Some "u1") world_authenticated
     = Some (0, world_authenticated).
Proof.
  split_and!; try (vm_compute; reflexivity).
  eexists. split; [split; [discriminate | vm_compute; reflexivity] | done].
Qed.

(** C7, as the code has it.  On a live handle whose flags are ordered,
    [atem_rtm_publish_channel] returns -1 exactly when the client is not in
    state ChannelJoined or the payload is null, and then changes nothing; in
    state ChannelJoined it returns 0 for every non-null payload, the empty
    string included. *)
Theorem publish_rejected_iff
    (w : Sim.world) (p : N) (c : Sim.AtemRtmClient) (payload_ : option string) :
  live w p c ->
  state_ordered c = true ->
  exists r w',
    Sim.atem_rtm_publish_channel p payload_ w = Some (r, w')
    /\ (r = 0 \/ r = -1)
    /\ (r = -1 <-> state_of c <> ChannelJoined \/ payload_ = None)
    /\ (r = -1 -> w' = w)
    /\ (r = 0 -> live w' p c).
Proof.
  intros Hl Hord. rewrite (publish_channel_live _ _ _ Hl).
  apply state_ordered_spec in Hord as [H1 H2].
  unfold state_of.
  destruct (Sim.channel_joined c) eqn:Hj.
  - rewrite (H2 (H1 eq_refl)). simpl.
    destruct payload_ as [body|]; eexists _, _; (split; [reflexivity|]).
    + split_and!; [by left | split; [done | by intros [|]] | done |].
      intros _. by destruct (is_null (Sim.callback c)).
    + split_and!; [by right | split; [by right | done] | done | done].
  - rewrite andb_false_r. eexists _, _. split; [reflexivity|].
    split_and!; [by right | split; [intros _; left | done] | done | done].
    by destruct (Sim.logged_in c), (Sim.connected c).
Qed.

Lemma publish_rejected_iff_witness :
  live world_joined 1%N client_joined
  /\ state_ordered client_joined
     = true
  /\ exists r w',
       Sim.atem_rtm_publish_channel 1%N (Some EmptyString) world_joined
       = Some (r, w')
       /\ (r = 0 \/ r = -1)
       /\ (r = -1 <->
           state_of client_joined
           <> ChannelJoined \/ Some EmptyString = None)
       /\ (r = -1 -> w' = world_joined)
       /\ (r = 0 ->
           live w' 1%N client_joined).
Proof.
  assert (H : live world_joined 1%N client_joined).
  { split; [discriminate | vm_compute; reflexivity]. }
  split; [exact H|]. split; [reflexivity|].
  exact (publish_rejected_iff world_joined 1%N _ (Some EmptyString) H eq_refl).
Defined.

(** C7, as stated, fails: in state ChannelJoined a publish of the empty
    payload returns 0 (and calls the callback with it), not -1. *)
Lemma publish_accepts_empty_payload :
  create_then cfg_u1 cb7 ctx9
    [Connect; Login (Some "tok") (Some "u1"); JoinChannel (Some "c1")] world0
  = Some ((1%N, [0; 0; 0]), world_joined)
  /\ (exists c, live world_joined 1%N c /\ state_of c = ChannelJoined)
  /\ Sim.atem_rtm_publish_channel 1%N (Some EmptyString) world_joined
     = Some (0, logged (mkDelivery cb7 "u1" EmptyString ctx9) world_joined).
Proof.
  split_and!; try (vm_compute; reflexivity).
  eexists. split; [split; [discriminate | vm_compute; reflexivity] | done].
Qed.

(** C8, as the code has it.  [atem_rtm_send_peer] on a live handle returns
    -1 exactly when the [connected] flag is clear or the target or the
    payload is null, and then changes nothing; otherwise it returns 0,
    whatever [logged_in] and [channel_joined] are and whether or not the
    strings are empty. *)
Theorem send_peer_rejected_iff
    (w : Sim.world) (p : N) (c : Sim.AtemRtmClient)
    (target_client_id payload_ : option string) :
  live w p c ->
  exists r w',
    Sim.atem_rtm_send_peer p target_client_id payload_ w = Some (r, w')
    /\ (r = 0 \/ r = -1)
    /\ (r = -1 <->
        Sim.connected c = false \/ target_client_id = None \/ payload_ = None)
    /\ (r = -1 -> w' = w)
    /\ (r = 0 -> live w' p c).
Proof.
  intros Hl. rewrite (send_peer_live _ _ _ Hl).
  destruct (Sim.connected c) eqn:Hc;
    [destruct target_client_id as [target|], payload_ as [body|]|];
    eexists _, _; (split; [reflexivity|]).
  - split_and!; [by left | split; [done | by intros [|[|]]] | done |].
    intros _. by destruct (is_null (Sim.callback c)).
  - split_and!; [by right | split; [by right; right | done] | done | done].
  - split_and!; [by right | split; [by right; left | done] | done | done].
  - split_and!; [by right | split; [by right; left | done] | done | done].
  - split_and!; [by right | split; [by left | done] | done | done].
Qed.

Lemma send_peer_rejected_iff_witness :
  live world_connected 1%N client_connected
  /\ exists r w',
       Sim.atem_rtm_send_peer 1%N (Some EmptyString) (Some "ping")
         world_connected
       = Some (r, w')
       /\ (r = 0 \/ r = -1)
       /\ (r = -1 <->
           Sim.connected client_connected = false
           \/ Some EmptyString = None \/ Some "ping" = None)
       /\ (r = -1 -> w' = world_connected)
       /\ (r = 0 ->
           live w' 1%N client_connected).
Proof.
  assert (H : live world_connected 1%N client_connected).
  { split; [discriminate | vm_compute; reflexivity]. }
  split; [exact H|].
  exact (send_peer_rejected_iff world_connected 1%N _
           (Some EmptyString) (Some "ping") H).
Defined.

(** C8, as stated, fails: on a connected client a send with the empty target
    returns 0, and so does a send with the empty payload. *)
Lemma send_peer_accepts_empty_strings :
  create_then cfg_u1 cb7 ctx9 [Connect] world0
  = Some ((1%N, [0]), world_connected)
  /\ Sim.atem_rtm_send_peer 1%N (Some EmptyString) (Some "ping") world_connected
     = Some (0, logged (mkDelivery cb7 EmptyString "ping" ctx9) world_connected)
  /\ Sim.atem_rtm_send_peer 1%N (Some "peer42") (Some EmptyString)
       world_connected
     = Some (0, logged (mkDelivery cb7 "peer42" EmptyString ctx9)
                  world_connected).
Proof. split_and!; vm_compute; reflexivity. Qed.

(** C9.  Loopback in the simulator.  With a callback registered, a publish
    on a joined client returns 0 and appends exactly one call of that
    callback to the trace, with the payload as given (the sender is the
    configured participant id, or "self"); a send on a connected client
    returns 0 and appends exactly one call, with the target as sender and the
    payload as given.  Both pass the registered context. *)
Theorem simulator_loopback
    (w : Sim.world) (p : N) (c : Sim.AtemRtmClient) (target body : string) :
  live w p c ->
  state_ordered c = true ->
  Sim.callback c <> nullptr ->
  (Sim.channel_joined c = true ->
   exists w',
     Sim.atem_rtm_publish_channel p (Some body) w = Some (0, w')
     /\ heap w' = heap w
     /\ trace w'
        = (trace w ++
           [mkDelivery (Sim.callback c)
              (match cfg_client_id (Sim.config c) with
               | Some id => id
               | None => "self"
               end)
              body (Sim.user_data c)])%list)
  /\ (Sim.connected c = true ->
      exists w',
        Sim.atem_rtm_send_peer p (Some target) (Some body) w = Some (0, w')
        /\ heap w' = heap w
        /\ trace w'
           = (trace w ++
              [mkDelivery (Sim.callback c) target body
                 (Sim.user_data c)])%list).
Proof.
  intros Hl Hord Hcb. apply is_null_false in Hcb.
  apply state_ordered_spec in Hord as [H1 H2].
  split.
  - intros Hj. rewrite (publish_channel_live _ _ _ Hl).
    rewrite Hj, (H2 (H1 Hj)), Hcb. simpl.
    eexists. split; [reflexivity|]. by split.
  - intros Hc. rewrite (send_peer_live _ _ _ Hl).
    rewrite Hc, Hcb.
    eexists. split; [reflexivity|]. by split.
Qed.

Lemma simulator_loopback_witness :
  live world_joined 1%N client_joined
  /\ state_ordered client_joined
     = true
  /\ cb7 <> nullptr
  /\ (exists w',
        Sim.atem_rtm_publish_channel 1%N (Some "hello") world_joined
        = Some (0, w')
        /\ heap w' = heap world_joined
        /\ trace w'
           = (trace world_joined ++ [mkDelivery cb7 "u1" "hello" ctx9])%list)
  /\ (exists w',
        Sim.atem_rtm_send_peer 1%N (Some "peer42") (Some "ping") world_joined
        = Some (0, w')
        /\ heap w' = heap world_joined
        /\ trace w'
           = (trace world_joined
              ++ [mkDelivery cb7 "peer42" "ping" ctx9])%list).
Proof.
  assert (H : live world_joined 1%N client_joined).
  { split; [discriminate | vm_compute; reflexivity]. }
  assert (Hcb : cb7 <> nullptr) by discriminate.
  split; [exact H|]. split; [reflexivity|]. split; [exact Hcb|].
  split.
  - exact (proj1 (simulator_loopback world_joined 1%N _ "peer42" "hello"
                    H eq_refl Hcb) eq_refl).
  - exact (proj2 (simulator_loopback world_joined 1%N _ "peer42" "ping"
                    H eq_refl Hcb) eq_refl).
Defined.

(** ** The vendor-backed adapter on the same points *)

(** Its connect has no state to look at: any non-null handle is accepted. *)
Lemma real_connect_accepts (w : Real.world) (p : N) :
  p <> nullptr -> Real.atem_rtm_connect p w = Some (0, w).
Proof.
  intros Hp. apply is_null_false in Hp.
  unfold Real.atem_rtm_connect. by rewrite Hp.
Qed.

(** Its inbound path is guarded like the simulator's sends: with no callback
    registered a message event is dropped. *)
Lemma real_message_without_callback
    (w : Real.world) (p : N) (c : Real.AtemRtmClient)
    (publisher message : option string) :
  heap w !! p = Some c ->
  Real.callback c = nullptr ->
  Real.onMessageEvent p publisher message w = Some (tt, w).
Proof.
  intros Hc Hcb. unfold Real.onMessageEvent. run. by rewrite Hcb.
Qed.

(** ** The default token (C6) *)

(** With a token supplied, a successful simulator login records it. *)
Lemma sim_login_records_supplied_token
    (w : Sim.world) (p : N) (c : Sim.AtemRtmClient) (tok uid : string) :
  live w p c ->
  Sim.connected c = true ->
  exists c',
    Sim.atem_rtm_login p (Some tok) (Some uid) w = Some (0, upd p c' w)
    /\ Sim.token c' = tok.
Proof.
  intros Hl Hc. rewrite (login_live _ _ _ Hl), Hc. by eexists.
Qed.

(** Without one, it records the empty string, whatever the configuration
    holds. *)
Lemma sim_login_null_token
    (w : Sim.world) (p : N) (c : Sim.AtemRtmClient) (uid : string) :
  live w p c ->
  Sim.connected c = true ->
  exists c',
    Sim.atem_rtm_login p None (Some uid) w = Some (0, upd p c' w)
    /\ Sim.token c' = EmptyString
    /\ Sim.config c' = Sim.config c.
Proof.
  intros Hl Hc. rewrite (login_live _ _ _ Hl), Hc. by eexists.
Qed.

(** The vendor-backed adapter keeps the configured token at creation ... *)
Lemma real_create_keeps_token
    (cfg : AtemRtmConfig) (app id : string) (cb ctx sdk : N) (w : Real.world) :
  cfg_app_id cfg = Some app ->
  cfg_client_id cfg = Some id ->
  sdk <> nullptr ->
  exists p,
    Real.atem_rtm_create (Some cfg) cb ctx (sdk, 0) w =
    Some (p, upd p (Real.mkClient sdk cb ctx app (copy_or_empty (cfg_token cfg))
                      (copy_or_empty (cfg_channel cfg)) id) w)
    /\ p <> nullptr.
Proof.
  intros Happ Hid Hsdk. apply is_null_false in Hsdk.
  destruct (new_fresh Real.fresh_client w) as (p & Hnew & Hp & _).
  exists p. split; [|done].
  unfold Real.atem_rtm_create. rewrite Happ, Hid.
  rewrite (bind_Some _ _ _ _ _ Hnew). run.
  simpl. rewrite Hsdk. reflexivity.
Qed.

(** ... and logs in with it when the caller passes no token, or an empty
    one. *)
Lemma real_login_default_token
    (w : Real.world) (p : N) (c : Real.AtemRtmClient)
    (token_ user_id_ : option string) :
  p <> nullptr ->
  heap w !! p = Some c ->
  Real.rtm_client c <> nullptr ->
  Real.atem_rtm_login p token_ user_id_ w =
  Some (0, logged (Real.SdkLogin (Real.rtm_client c)
                     (match token_ with
                      | Some (String a s) => String a s
                      | _ => Real.token c
                      end)) w).
Proof.
  intros Hp Hc Hsdk. apply is_null_false in Hp. apply is_null_false in Hsdk.
  unfold Real.atem_rtm_login. rewrite Hp. run. rewrite Hsdk.
  unfold bind, emit, ret. by destruct token_ as [[|a s]|].
Qed.

(** C6 on the simulator.  The client was created with the default token
    "cfgtok" and connected; a login without a token returns 0 and records the
    empty string as the token, not "cfgtok". *)
Theorem sim_login_ignores_default_token :
  create_then cfg_u1_token cb7 ctx9 [Connect] world0
  = Some ((1%N, [0]), world_connected_token)
  /\ cfg_token cfg_u1_token = Some "cfgtok"
  /\ Sim.atem_rtm_login 1%N None (Some "u1") world_connected_token
     = Some (0, upd 1%N (Sim.mkClient cfg_u1_token cb7 ctx9 true true false
                           "u1" EmptyString EmptyString) world0).
Proof. split_and!; vm_compute; reflexivity. Qed.

(** C10.  A client can be created without a callback.  After any calls on
    it nothing has been delivered, the callback is still null, and a publish
    or a send whose flags and arguments are in order returns 0 and leaves
    the world as it is.  And for a client created with any callback at all,
    null or not, no call ever delivers to a null function pointer. *)
Theorem null_callback_never_called
    (cfg : AtemRtmConfig) (ctx : N) (w : Sim.world) (ks : list call) :
  (exists p w0 rs w1 c,
     Sim.atem_rtm_create (Some cfg) nullptr ctx w = Some (p, w0)
     /\ do_calls p ks w0 = Some (rs, w1)
     /\ live w1 p c
     /\ Sim.callback c = nullptr
     /\ trace w1 = trace w
     /\ (Sim.connected c = true -> Sim.channel_joined c = true ->
         forall body,
           Sim.atem_rtm_publish_channel p (Some body) w1 = Some (0, w1))
     /\ (Sim.connected c = true ->
         forall target body,
           Sim.atem_rtm_send_peer p (Some target) (Some body) w1
           = Some (0, w1)))
  /\ (forall cb,
      exists p w0 rs w1 ds,
        Sim.atem_rtm_create (Some cfg) cb ctx w = Some (p, w0)
        /\ do_calls p ks w0 = Some (rs, w1)
        /\ trace w1 = (trace w ++ ds)%list
        /\ Forall (fun d => dlv_callback d <> nullptr) ds).
Proof.
  split.
  - destruct (create_live cfg nullptr ctx w) as (p & Hcreate & _).
    pose proof (create_Some _ _ _ _ _ _ Hcreate) as [_ Hl0].
    destruct (do_calls_steps p ks _ _ Hl0)
      as (rs & w1 & c & ds & Hrun & Hl & _ & Hcb & _ & Htr & Hds).
    simpl in Hcb.
    assert (ds = []) as ->.
    { destruct ds as [|d ds]; [done|].
      apply Forall_cons in Hds as [(H1 & H2 & _) _]. simpl in H1. done. }
    rewrite app_nil_r in Htr.
    eexists p, _, rs, w1, c. split_and!; [exact Hcreate | done..| |].
    + intros Hc Hj body. rewrite (publish_channel_live _ _ _ Hl).
      by rewrite Hc, Hj, Hcb.
    + intros Hc target body. rewrite (send_peer_live _ _ _ Hl).
      by rewrite Hc, Hcb.
  - intros cb.
    destruct (create_live cfg cb ctx w) as (p & Hcreate & _).
    pose proof (create_Some _ _ _ _ _ _ Hcreate) as [_ Hl0].
    destruct (do_calls_steps p ks _ _ Hl0)
      as (rs & w1 & c & ds & Hrun & _ & _ & _ & _ & Htr & Hds).
    eexists p, _, rs, w1, ds. split_and!; [exact Hcreate | done.. |].
    eapply Forall_impl; [exact Hds|]. by intros d (_ & H & _).
Qed.

(** ** Further properties of the simulator *)

Lemma do_call_shape (w : Sim.world) p c k :
  live w p c -> call_shape w p c (do_call p k w).
Proof.
  intros Hl. destruct k as [| | t u | ch | body | target body]; simpl.
  - rewrite (connect_live _ _ _ Hl). by constructor.
  - rewrite (disconnect_live _ _ _ Hl). by constructor.
  - rewrite (login_live _ _ _ Hl).
    destruct (Sim.connected c); [destruct u|]; by constructor.
  - rewrite (join_channel_live _ _ _ Hl).
    destruct (Sim.logged_in c); [destruct ch|]; by constructor.
  - rewrite (publish_channel_live _ _ _ Hl).
    destruct (Sim.connected c && Sim.channel_joined c); [destruct body|];
      try by constructor.
    destruct (is_null (Sim.callback c)) eqn:Hcb; constructor.
    by apply is_null_false.
  - rewrite (send_peer_live _ _ _ Hl).
    destruct (Sim.connected c); [destruct target, body|]; try by constructor.
    destruct (is_null (Sim.callback c)) eqn:Hcb; constructor.
    by apply is_null_false.
Qed.

(** X1.  A null handle is turned away by every call of the simulator: each
    returns -1 and leaves the world as it is, and destroy does nothing. *)
Theorem sim_null_handle_rejected (w : Sim.world) (k : call) :
  do_call nullptr k w = Some (-1, w)
  /\ Sim.atem_rtm_destroy nullptr w = Some (tt, w).
Proof. by destruct k. Qed.

(** X2.  [atem_rtm_create] without a configuration returns null and touches
    nothing.  With one it returns a handle that is not null and was not in
    use, pointing at a client that holds the given configuration, callback
    and context with all flags clear; the clients behind all other handles
    and the deliveries made so far stay as they were. *)
Theorem sim_create_fresh_handle
    (cfg : AtemRtmConfig) (cb ctx : N) (w : Sim.world) :
  Sim.atem_rtm_create None cb ctx w = Some (nullptr, w)
  /\ exists p w',
       Sim.atem_rtm_create (Some cfg) cb ctx w = Some (p, w')
       /\ p <> nullptr
       /\ heap w !! p = None
       /\ heap w' !! p = Some (created_client cfg cb ctx)
       /\ (forall q, q <> p -> heap w' !! q = heap w !! q)
       /\ trace w' = trace w.
Proof.
  split; [reflexivity|].
  destruct (create_live cfg cb ctx w) as (p & Hcreate & Hp & Hfree).
  eexists p, _. split; [exact Hcreate|].
  split_and!; try done.
  - apply heap_upd.
  - intros q Hq. by apply heap_upd_ne.
Qed.

Lemma do_calls_frame
    (w w' : Sim.world) (p : N) (c : Sim.AtemRtmClient)
    (ks : list call) (rs : list Z) :
  live w p c ->
  do_calls p ks w = Some (rs, w') ->
  forall q, q <> p -> heap w' !! q = heap w !! q.
Proof.
  revert w c rs. induction ks as [|k ks IH]; intros w c rs Hl Hrun q Hq.
  - simpl in Hrun. unfold ret in Hrun. by injection Hrun as _ <-.
  - destruct (do_call_step w p c Hl k)
      as (r & w1 & c1 & ds & Hk & Hl1 & _).
    rewrite (do_calls_cons _ _ _ _ _ _ Hk) in Hrun.
    destruct (do_calls p ks w1) as [[rs1 w2]|] eqn:Hrest; [|done].
    injection Hrun as _ <-.
    rewrite (IH w1 c1 rs1 Hl1 Hrest q Hq).
    pose proof (do_call_shape w p c k Hl) as Hs. rewrite Hk in Hs.
    inversion Hs; subst; try done.
    by apply heap_upd_ne.
Qed.

(** X3.  A call on one handle is a call on that client only: whatever calls
    are made on a live handle, the clients behind all other handles stay as
    they were. *)
Theorem sim_calls_leave_other_clients
    (w w' : Sim.world) (p : N) (c : Sim.AtemRtmClient)
    (ks : list call) (rs : list Z) :
  live w p c ->
  do_calls p ks w = Some (rs, w') ->
  forall q, q <> p -> heap w' !! q = heap w !! q.
Proof. apply do_calls_frame. Qed.

Lemma sim_calls_leave_other_clients_witness :
  live (upd 2%N client_joined world_connected) 1%N client_connected
  /\ do_calls 1%N
       [Login (Some "tok") (Some "u1"); JoinChannel (Some "c1"); Disconnect]
       (upd 2%N client_joined world_connected)
     = Some ([0; 0; 0],
             upd 1%N
               (Sim.mkClient cfg_u1 cb7 ctx9 false false false "u1" "c1" "tok")
               (upd 2%N client_joined world_connected))
  /\ heap (upd 1%N
             (Sim.mkClient cfg_u1 cb7 ctx9 false false false "u1" "c1" "tok")
             (upd 2%N client_joined world_connected)) !! 2%N
     = heap (upd 2%N client_joined world_connected) !! 2%N.
Proof.
  assert (Hl : live (upd 2%N client_joined world_connected) 1%N
                 client_connected).
  { split; [discriminate | vm_compute; reflexivity]. }
  assert (Hrun :
    do_calls 1%N
      [Login (Some "tok") (Some "u1"); JoinChannel (Some "c1"); Disconnect]
      (upd 2%N client_joined world_connected)
    = Some ([0; 0; 0],
            upd 1%N
              (Sim.mkClient cfg_u1 cb7 ctx9 false false false "u1" "c1" "tok")
              (upd 2%N client_joined world_connected))).
  { vm_compute; reflexivity. }
  split; [exact Hl|]. split; [exact Hrun|].
  apply (sim_calls_leave_other_clients _ _ 1%N _ _ _ Hl Hrun 2%N).
  discriminate.
Defined.

(** The configuration, the callback and the context of a client survive any
    calls. *)
Lemma do_calls_keep_registration p ks : forall (w w' : Sim.world) c c' rs,
  live w p c ->
  do_calls p ks w = Some (rs, w') ->
  live w' p c' ->
  Sim.config c' = Sim.config c
  /\ Sim.callback c' = Sim.callback c
  /\ Sim.user_data c' = Sim.user_data c.
Proof.
  induction ks as [|k ks IH]; intros w w' c c' rs Hl Hrun Hl'.
  - simpl in Hrun. unfold ret in Hrun. injection Hrun as _ <-.
    destruct Hl as [_ H1], Hl' as [_ H2]. by simplify_eq.
  - pose proof (do_call_shape w p c k Hl) as Hs.
    destruct (do_call p k w) as [[r w1]|] eqn:Hk; [|inversion Hs].
    rewrite (do_calls_cons _ _ _ _ _ _ Hk) in Hrun.
    destruct (do_calls p ks w1) as [[rs1 w2]|] eqn:Hrest; [|done].
    injection Hrun as _ <-.
    inversion Hs; subst.
    + exact (IH _ _ _ _ _ Hl Hrest Hl').
    + destruct (IH _ _ c'0 c' _ (live_upd _ _ _ _ Hl) Hrest Hl')
        as (-> & -> & ->). done.
    + exact (IH _ _ _ _ _ Hl Hrest Hl').
    + exact (IH (logged _ w) _ c c' _ Hl Hrest Hl').
Qed.

(** X4.  The registration is a snapshot: after any calls on a created
    client, its configuration, callback and context are still the ones
    passed to [atem_rtm_create]. *)
Theorem sim_registration_never_changes
    (cfg : AtemRtmConfig) (cb ctx : N) (w w0 w' : Sim.world) (p : N)
    (ks : list call) (rs : list Z) (c : Sim.AtemRtmClient) :
  Sim.atem_rtm_create (Some cfg) cb ctx w = Some (p, w0) ->
  do_calls p ks w0 = Some (rs, w') ->
  live w' p c ->
  Sim.config c = cfg /\ Sim.callback c = cb /\ Sim.user_data c = ctx.
Proof.
  intros Hcreate Hrun Hl. apply create_Some in Hcreate as [_ Hl0].
  exact (do_calls_keep_registration p ks _ _ _ _ _ Hl0 Hrun Hl).
Qed.

Lemma sim_registration_never_changes_witness :
  Sim.atem_rtm_create (Some cfg_u1) cb7 ctx9 world0
  = Some (1%N, upd 1%N (created_client cfg_u1 cb7 ctx9) world0)
  /\ do_calls 1%N
       [Connect; Login (Some "tok") (Some "u1"); JoinChannel (Some "c1")]
       (upd 1%N (created_client cfg_u1 cb7 ctx9) world0)
     = Some ([0; 0; 0], world_joined)
  /\ live world_joined 1%N client_joined
  /\ Sim.config client_joined = cfg_u1
  /\ Sim.callback client_joined = cb7
  /\ Sim.user_data client_joined = ctx9.
Proof.
  assert (H1 : Sim.atem_rtm_create (Some cfg_u1) cb7 ctx9 world0
               = Some (1%N, upd 1%N (created_client cfg_u1 cb7 ctx9) world0))
    by (vm_compute; reflexivity).
  assert (H2 : do_calls 1%N
                 [Connect; Login (Some "tok") (Some "u1");
                  JoinChannel (Some "c1")]
                 (upd 1%N (created_client cfg_u1 cb7 ctx9) world0)
               = Some ([0; 0; 0], world_joined))
    by (vm_compute; reflexivity).
  assert (H3 : live world_joined 1%N client_joined).
  { split; [discriminate | vm_compute; reflexivity]. }
  split; [exact H1|]. split; [exact H2|]. split; [exact H3|].
  exact (sim_registration_never_changes _ _ _ _ _ _ _ _ _ _ H1 H2 H3).
Defined.

(** X5.  Every simulator call on a live handle returns 0 or -1, and a call
    that returns -1 has changed nothing: no flag, no string, no delivery. *)
Theorem sim_rejection_changes_nothing
    (w : Sim.world) (p : N) (c : Sim.AtemRtmClient) (k : call) :
  live w p c ->
  exists r w',
    do_call p k w = Some (r, w')
    /\ (r = 0 \/ r = -1)
    /\ (r = -1 -> w' = w).
Proof.
  intros Hl. pose proof (do_call_shape w p c k Hl) as Hs.
  inversion Hs; eexists _, _; (split; [reflexivity|]); split; auto; done.
Qed.

Lemma sim_rejection_changes_nothing_witness :
  live world_connected 1%N client_connected
  /\ exists r w',
       do_call 1%N (JoinChannel (Some "c1")) world_connected = Some (r, w')
       /\ (r = 0 \/ r = -1)
       /\ (r = -1 -> w' = world_connected).
Proof.
  assert (Hl : live world_connected 1%N client_connected).
  { split; [discriminate | vm_compute; reflexivity]. }
  split; [exact Hl|].
  exact (sim_rejection_changes_nothing _ _ _ (JoinChannel (Some "c1")) Hl).
Defined.

(** X6.  [atem_rtm_join_channel] on a live handle returns -1 exactly when
    [logged_in] is clear or the channel is null, and then changes nothing.
    Otherwise it returns 0, sets [channel_joined] and stores the channel in
    place of whatever channel was stored before: a join while joined is
    accepted and replaces the membership. *)
Theorem sim_join_channel_replaces
    (w : Sim.world) (p : N) (c : Sim.AtemRtmClient)
    (channel_id_ : option string) :
  live w p c ->
  exists r w',
    Sim.atem_rtm_join_channel p channel_id_ w = Some (r, w')
    /\ (r = 0 \/ r = -1)
    /\ (r = -1 <-> Sim.logged_in c = false \/ channel_id_ = None)
    /\ (r = -1 -> w' = w)
    /\ (r = 0 ->
        exists ch,
          channel_id_ = Some ch
          /\ w' = upd p (Sim.mkClient (Sim.config c) (Sim.callback c)
                           (Sim.user_data c) (Sim.connected c) true true
                           (Sim.user_id c) ch (Sim.token c)) w).
Proof.
  intros Hl. rewrite (join_channel_live _ _ _ Hl).
  destruct (Sim.logged_in c) eqn:Hlog; [destruct channel_id_ as [ch|]|];
    eexists _, _; (split; [reflexivity|]).
  - split_and!; [by left | split; [done | by intros [|]] | done |].
    intros _. exists ch. split; [done|].
    unfold Sim.set_channel_joined, Sim.set_channel_id; simpl. by rewrite Hlog.
  - split_and!; [by right | split; [by right | done] | done | done].
  - split_and!; [by right | split; [by left | done] | done | done].
Qed.

Lemma sim_join_channel_replaces_witness :
  live world_joined 1%N client_joined
  /\ exists r w',
       Sim.atem_rtm_join_channel 1%N (Some "c2") world_joined = Some (r, w')
       /\ (r = 0 \/ r = -1)
       /\ (r = -1 <-> Sim.logged_in client_joined = false \/ Some "c2" = None)
       /\ (r = -1 -> w' = world_joined)
       /\ (r = 0 ->
           exists ch,
             Some "c2" = Some ch
             /\ w' = upd 1%N
                       (Sim.mkClient cfg_u1 cb7 ctx9 true true true "u1" ch
                          "tok") world_joined).
Proof.
  assert (Hl : live world_joined 1%N client_joined).
  { split; [discriminate | vm_compute; reflexivity]. }
  split; [exact Hl|].
  exact (sim_join_channel_replaces world_joined 1%N _ (Some "c2") Hl).
Defined.

(** X7.  After a disconnect, from whatever state, the client turns away
    everything but connect (and disconnect): login, join, publish and send
    all return -1 and change nothing. *)
Theorem sim_disconnected_rejects_all
    (w : Sim.world) (p : N) (c : Sim.AtemRtmClient) :
  live w p c ->
  exists w1,
    Sim.atem_rtm_disconnect p w = Some (0, w1)
    /\ forall k, k <> Connect -> k <> Disconnect ->
                 do_call p k w1 = Some (-1, w1).
Proof.
  intros Hl. pose proof Hl as [Hp _].
  eexists. split; [apply (disconnect_live _ _ _ Hl)|].
  intros k H1 H2.
  pose proof (live_upd_fresh w p
                (Sim.set_channel_joined false
                   (Sim.set_logged_in false (Sim.set_connected false c))) Hp)
    as Hl1.
  destruct k as [| | t u | ch | body | target body]; try done; simpl.
  - by rewrite (login_live _ _ _ Hl1).
  - by rewrite (join_channel_live _ _ _ Hl1).
  - by rewrite (publish_channel_live _ _ _ Hl1).
  - by rewrite (send_peer_live _ _ _ Hl1).
Qed.

Lemma sim_disconnected_rejects_all_witness :
  live world_joined 1%N client_joined
  /\ exists w1,
       Sim.atem_rtm_disconnect 1%N world_joined = Some (0, w1)
       /\ forall k, k <> Connect -> k <> Disconnect ->
                    do_call 1%N k w1 = Some (-1, w1).
Proof.
  assert (Hl : live world_joined 1%N client_joined).
  { split; [discriminate | vm_compute; reflexivity]. }
  split; [exact Hl|].
  exact (sim_disconnected_rejects_all world_joined 1%N _ Hl).
Defined.

(** X8.  The channel sender is the participant id of the configuration, not
    the one passed to login: on a client created with a callback, connect,
    login with any token and id, join of any channel and publish return 0
    four times and the one delivery names the configured [client_id], or
    "self" when the configuration has none. *)
Theorem sim_publish_names_configured_id
    (cfg : AtemRtmConfig) (cb ctx : N) (w : Sim.world)
    (tok : option string) (uid ch body : string) :
  cb <> nullptr ->
  exists p w',
    create_then cfg cb ctx
      [Connect; Login tok (Some uid); JoinChannel (Some ch);
       PublishChannel (Some body)] w
    = Some ((p, [0; 0; 0; 0]), w')
    /\ trace w'
       = (trace w ++
          [mkDelivery cb
             (match cfg_client_id cfg with
              | Some id => id
              | None => "self"
              end)
             body ctx])%list.
Proof.
  intros Hcb. apply is_null_false in Hcb.
  destruct (create_live cfg cb ctx w) as (p & Hcreate & Hp & _).
  eexists p, _. split.
  - apply (create_then_Some _ _ _ _ _ _ _ _ _ Hcreate).
    call_with connect_live. call_with login_live.
    call_with join_channel_live. call_with publish_channel_live.
    simpl. rewrite Hcb. reflexivity.
  - reflexivity.
Qed.

Lemma sim_publish_names_configured_id_witness :
  cb7 <> nullptr
  /\ exists p w',
       create_then (mkConfig (Some "A") None None None) cb7 ctx9
         [Connect; Login None (Some "u2"); JoinChannel (Some "room1");
          PublishChannel (Some "hello")] world0
       = Some ((p, [0; 0; 0; 0]), w')
       /\ trace w'
          = (trace world0 ++ [mkDelivery cb7 "self" "hello" ctx9])%list.
Proof.
  split; [discriminate|].
  apply (sim_publish_names_configured_id (mkConfig (Some "A") None None None)
           cb7 ctx9 world0 None "u2" "room1" "hello").
  discriminate.
Defined.

(** The deliveries expected of a client depend on its callback, context and
    configuration only. *)
Lemma expected_deliveries_ext c c' ks : forall rs,
  Sim.config c' = Sim.config c ->
  Sim.callback c' = Sim.callback c ->
  Sim.user_data c' = Sim.user_data c ->
  expected_deliveries c' ks rs = expected_deliveries c ks rs.
Proof.
  intros rs H1 H2 H3. revert rs.
  induction ks as [|k ks IH]; intros [|r rs]; simpl; try done.
  unfold publish_sender. by rewrite IH, H1, H2, H3.
Qed.

Lemma do_call_deliveries (w : Sim.world) p c k :
  live w p c ->
  Sim.callback c <> nullptr ->
  exists r w' c',
    do_call p k w = Some (r, w')
    /\ live w' p c'
    /\ Sim.config c' = Sim.config c
    /\ Sim.callback c' = Sim.callback c
    /\ Sim.user_data c' = Sim.user_data c
    /\ trace w' = (trace w ++ expected_deliveries c [k] [r])%list.
Proof.
  intros Hl Hcb. pose proof Hl as [Hp _]. apply is_null_false in Hcb.
  assert (Hnil : trace w = (trace w ++ [])%list) by (by rewrite app_nil_r).
  destruct k as [| | t u | ch | body | target body]; simpl do_call.
  - rewrite (connect_live _ _ _ Hl).
    eexists _, _, _. split; [reflexivity|].
    split; [by apply live_upd_fresh|]. by split_and!.
  - rewrite (disconnect_live _ _ _ Hl).
    eexists _, _, _. split; [reflexivity|].
    split; [by apply live_upd_fresh|]. by split_and!.
  - rewrite (login_live _ _ _ Hl).
    destruct (Sim.connected c); [destruct u|];
      eexists _, _, _; (split; [reflexivity|]).
    + split; [by apply live_upd_fresh|]. by split_and!.
    + split; [exact Hl|]. by split_and!.
    + split; [exact Hl|]. by split_and!.
  - rewrite (join_channel_live _ _ _ Hl).
    destruct (Sim.logged_in c); [destruct ch|];
      eexists _, _, _; (split; [reflexivity|]).
    + split; [by apply live_upd_fresh|]. by split_and!.
    + split; [exact Hl|]. by split_and!.
    + split; [exact Hl|]. by split_and!.
  - rewrite (publish_channel_live _ _ _ Hl), Hcb.
    destruct (Sim.connected c && Sim.channel_joined c); [destruct body|];
      eexists _, _, _; (split; [reflexivity|]);
      (split; [exact Hl|]); by split_and!.
  - rewrite (send_peer_live _ _ _ Hl), Hcb.
    destruct (Sim.connected c); [destruct target, body|];
      eexists _, _, _; (split; [reflexivity|]);
      (split; [exact Hl|]); by split_and!.
Qed.

(** X9.  With a callback registered, the deliveries of a run are exactly
    the accepted sends, in call order: each publish or send that returned 0
    has called the callback once with its payload (and the configured id,
    or the target, as sender); rejected sends and all other calls have
    delivered nothing. *)
Theorem sim_deliveries_follow_sends
    (p : N) (ks : list call) (w w' : Sim.world) (c : Sim.AtemRtmClient)
    (rs : list Z) :
  live w p c ->
  Sim.callback c <> nullptr ->
  do_calls p ks w = Some (rs, w') ->
  trace w' = (trace w ++ expected_deliveries c ks rs)%list.
Proof.
  revert w c rs. induction ks as [|k ks IH]; intros w c rs Hl Hcb Hrun.
  - simpl in Hrun. unfold ret in Hrun. injection Hrun as <- <-.
    simpl. by rewrite app_nil_r.
  - destruct (do_call_deliveries w p c k Hl Hcb)
      as (r & w1 & c1 & Hk & Hl1 & Hcfg & Hcb1 & Hud & Htr).
    rewrite (do_calls_cons _ _ _ _ _ _ Hk) in Hrun.
    destruct (do_calls p ks w1) as [[rs1 w2]|] eqn:Hrest; [|done].
    injection Hrun as <- <-.
    assert (Hcb1' : Sim.callback c1 <> nullptr) by (by rewrite Hcb1).
    rewrite (IH w1 c1 rs1 Hl1 Hcb1' Hrest), Htr.
    rewrite (expected_deliveries_ext c c1 ks rs1 Hcfg Hcb1 Hud).
    simpl. by rewrite !app_nil_r, app_assoc.
Qed.

Lemma sim_deliveries_follow_sends_witness :
  live world_connected 1%N client_connected
  /\ Sim.callback client_connected <> nullptr
  /\ do_calls 1%N
       [PublishChannel (Some "a"); SendPeer (Some "peer42") (Some "ping");
        Login None (Some "u1"); JoinChannel (Some "c1");
        PublishChannel (Some "b"); SendPeer None (Some "c")]
       world_connected
     = Some ([-1; 0; 0; 0; 0; -1],
             logged (mkDelivery cb7 "u1" "b" ctx9)
               (logged (mkDelivery cb7 "peer42" "ping" ctx9)
                  (upd 1%N
                     (Sim.mkClient cfg_u1 cb7 ctx9 true true true "u1" "c1"
                        EmptyString)
                     world0)))
  /\ trace (logged (mkDelivery cb7 "u1" "b" ctx9)
              (logged (mkDelivery cb7 "peer42" "ping" ctx9)
                 (upd 1%N
                    (Sim.mkClient cfg_u1 cb7 ctx9 true true true "u1" "c1"
                       EmptyString)
                    world0)))
     = (trace world_connected
        ++ [mkDelivery cb7 "peer42" "ping" ctx9;
            mkDelivery cb7 "u1" "b" ctx9])%list.
Proof.
  assert (Hl : live world_connected 1%N client_connected).
  { split; [discriminate | vm_compute; reflexivity]. }
  assert (Hcb : Sim.callback client_connected <> nullptr) by discriminate.
  assert (Hrun :
    do_calls 1%N
      [PublishChannel (Some "a"); SendPeer (Some "peer42") (Some "ping");
       Login None (Some "u1"); JoinChannel (Some "c1");
       PublishChannel (Some "b"); SendPeer None (Some "c")]
      world_connected
    = Some ([-1; 0; 0; 0; 0; -1],
            logged (mkDelivery cb7 "u1" "b" ctx9)
              (logged (mkDelivery cb7 "peer42" "ping" ctx9)
                 (upd 1%N
                    (Sim.mkClient cfg_u1 cb7 ctx9 true true true "u1" "c1"
                       EmptyString)
                    world0)))).
  { vm_compute; reflexivity. }
  split; [exact Hl|]. split; [exact Hcb|]. split; [exact Hrun|].
  exact (sim_deliveries_follow_sends 1%N _ _ _ _ _ Hl Hcb Hrun).
Defined.

(** ** The history behind a state *)

Lemma live_same (w : Sim.world) p c c' : live w p c -> live w p c' -> c = c'.
Proof. intros [_ H1] [_ H2]. congruence. Qed.

Lemma in_order_nil ks : in_order [] ks = true.
Proof. by destruct ks. Qed.

Lemma in_order_snoc ms ks k :
  in_order ms ks = true -> in_order ms (ks ++ [k]) = true.
Proof.
  revert ms. induction ks as [|k0 ks IH]; intros [|m ms]; simpl; try done.
  destruct (reaches m k0); apply IH.
Qed.

Lemma in_order_snoc_reaches ms m ks k :
  in_order ms ks = true -> reaches m k = true ->
  in_order (ms ++ [m]) (ks ++ [k]) = true.
Proof.
  intros H Hk. revert ms H.
  induction ks as [|k0 ks IH]; intros [|m0 ms] H; simpl in *; try done.
  - by rewrite Hk.
  - destruct (reaches m k0); [by destruct ks|]. apply (IH []). by destruct ks.
  - destruct (reaches m0 k0); [by apply IH|]. by apply (IH (m0 :: ms)).
Qed.

Lemma do_calls_snoc p ks k : forall (w : Sim.world),
  do_calls p (ks ++ [k]) w =
  match do_calls p ks w with
  | Some (rs, w1) =>
      match do_call p k w1 with
      | Some (r, w2) => Some ((rs ++ [r])%list, w2)
      | None => None
      end
  | None => None
  end.
Proof.
  induction ks as [|k0 ks IH]; intros w.
  - simpl. unfold bind, ret. by destruct (do_call p k w) as [[r w2]|].
  - change ((k0 :: ks) ++ [k])%list with (k0 :: (ks ++ [k]))%list.
    destruct (do_call p k0 w) as [[r0 w0]|] eqn:H0.
    + rewrite (do_calls_cons _ _ (ks ++ [k])%list _ _ _ H0).
      rewrite (do_calls_cons _ _ ks _ _ _ H0), IH.
      destruct (do_calls p ks w0) as [[rs w1]|]; [|done].
      by destruct (do_call p k w1) as [[r w2]|].
    + simpl. unfold bind. by rewrite H0.
Qed.

(** Each flag of a client created with all flags clear is backed by calls
    already made: [connected] by a connect, [logged_in] by a connect and a
    later login, [channel_joined] by these and a later join. *)
Lemma flags_have_history p (w0 : Sim.world) c0 ks :
  live w0 p c0 ->
  Sim.connected c0 = false ->
  Sim.logged_in c0 = false ->
  Sim.channel_joined c0 = false ->
  forall rs w c,
    do_calls p ks w0 = Some (rs, w) ->
    live w p c ->
    (Sim.connected c = true -> in_order [DidConnect] ks = true)
    /\ (Sim.logged_in c = true -> in_order [DidConnect; DidLogin] ks = true)
    /\ (Sim.channel_joined c = true ->
        in_order [DidConnect; DidLogin; DidJoin] ks = true).
Proof.
  intros Hl0 H1 H2 H3.
  induction ks as [|k ks IH] using rev_ind; intros rs w c Hrun Hl.
  - simpl in Hrun. unfold ret in Hrun. injection Hrun as _ <-.
    destruct Hl0 as [_ Ha], Hl as [_ Hb]. simplify_eq.
    rewrite H1, H2, H3. done.
  - rewrite do_calls_snoc in Hrun.
    destruct (do_calls_steps p ks w0 c0 Hl0)
      as (rs1 & w1 & c1 & ds & Hrun1 & Hl1 & _).
    rewrite Hrun1 in Hrun.
    destruct (IH rs1 w1 c1 Hrun1 Hl1) as (Ic & Il & Ij).
    pose proof Hl1 as [Hp _].
    destruct k as [| | t u | ch | body | target body]; simpl do_call in Hrun.
    + rewrite (connect_live _ _ _ Hl1) in Hrun. injection Hrun as _ <-.
      destruct Hl as [_ Hc]. rewrite heap_upd in Hc. injection Hc as <-.
      simpl. split_and!; try done. intros _.
      by apply (in_order_snoc_reaches [] DidConnect); [apply in_order_nil|].
    + rewrite (disconnect_live _ _ _ Hl1) in Hrun. injection Hrun as _ <-.
      destruct Hl as [_ Hc]. rewrite heap_upd in Hc. injection Hc as <-.
      simpl. by split_and!.
    + rewrite (login_live _ _ _ Hl1) in Hrun.
      destruct (Sim.connected c1) eqn:Hcon; [destruct u as [uid|]|];
        injection Hrun as _ <-.
      * destruct Hl as [_ Hc]. rewrite heap_upd in Hc. injection Hc as <-.
        simpl. rewrite Hcon. split_and!.
        -- intros _. apply in_order_snoc. by apply Ic.
        -- intros _.
           by apply (in_order_snoc_reaches [DidConnect] DidLogin); [apply Ic|].
        -- intros Hj. apply in_order_snoc. by apply Ij.
      * rewrite (live_same _ _ _ _ Hl Hl1), Hcon.
        split_and!; intros H; apply in_order_snoc; auto.
      * rewrite (live_same _ _ _ _ Hl Hl1), Hcon.
        split_and!; intros H; apply in_order_snoc; auto.
    + rewrite (join_channel_live _ _ _ Hl1) in Hrun.
      destruct (Sim.logged_in c1) eqn:Hlog; [destruct ch as [name|]|];
        injection Hrun as _ <-.
      * destruct Hl as [_ Hc]. rewrite heap_upd in Hc. injection Hc as <-.
        simpl. rewrite Hlog. split_and!.
        -- intros H. apply in_order_snoc. by apply Ic.
        -- intros _. apply in_order_snoc. by apply Il.
        -- intros _.
           by apply (in_order_snoc_reaches [DidConnect; DidLogin] DidJoin);
             [apply Il|].
      * rewrite (live_same _ _ _ _ Hl Hl1), Hlog.
        split_and!; intros H; apply in_order_snoc; auto.
      * rewrite (live_same _ _ _ _ Hl Hl1), Hlog.
        split_and!; intros H; apply in_order_snoc; auto.
    + rewrite (publish_channel_live _ _ _ Hl1) in Hrun.
      assert (c = c1) as ->.
      { destruct (Sim.connected c1 && Sim.channel_joined c1);
          [destruct body; [destruct (is_null (Sim.callback c1))|]|];
          injection Hrun as _ <-; exact (live_same _ _ _ _ Hl Hl1). }
      split_and!; intros H; apply in_order_snoc; auto.
    + rewrite (send_peer_live _ _ _ Hl1) in Hrun.
      assert (c = c1) as ->.
      { destruct (Sim.connected c1);
          [destruct target, body; [destruct (is_null (Sim.callback c1))|..]|];
          injection Hrun as _ <-; exact (live_same _ _ _ _ Hl Hl1). }
      split_and!; intros H; apply in_order_snoc; auto.
Qed.

(** X10.  No send is accepted without the calls that lead up to it.  On a
    client fresh from [atem_rtm_create], if after the calls [ks] a publish
    returns 0, then [ks] contains a connect, later a login naming a
    participant, and later a join naming a channel; if a send returns 0,
    then [ks] contains a connect. *)
Theorem sim_accepted_send_has_history
    (cfg : AtemRtmConfig) (cb ctx : N) (w w0 w1 : Sim.world) (p : N)
    (ks : list call) (rs : list Z) :
  Sim.atem_rtm_create (Some cfg) cb ctx w = Some (p, w0) ->
  do_calls p ks w0 = Some (rs, w1) ->
  (forall body w2,
     Sim.atem_rtm_publish_channel p body w1 = Some (0, w2) ->
     in_order [DidConnect; DidLogin; DidJoin] ks = true)
  /\ (forall target body w2,
        Sim.atem_rtm_send_peer p target body w1 = Some (0, w2) ->
        in_order [DidConnect] ks = true).
Proof.
  intros Hcreate Hrun. apply create_Some in Hcreate as [_ Hl0].
  destruct (do_calls_steps p ks w0 _ Hl0)
    as (rs' & w1' & c1 & ds & Hrun' & Hl1 & _).
  rewrite Hrun in Hrun'. injection Hrun' as <- <-.
  destruct (flags_have_history p w0 _ ks Hl0 eq_refl eq_refl eq_refl
              rs w1 c1 Hrun Hl1) as (Ic & _ & Ij).
  split.
  - intros body w2. rewrite (publish_channel_live _ _ _ Hl1).
    destruct (Sim.connected c1), (Sim.channel_joined c1); simpl; try done.
    intros _. by apply Ij.
  - intros target body w2. rewrite (send_peer_live _ _ _ Hl1).
    destruct (Sim.connected c1); [|done]. intros _. by apply Ic.
Qed.

Lemma sim_accepted_send_has_history_witness :
  Sim.atem_rtm_create (Some cfg_u1) cb7 ctx9 world0
  = Some (1%N, upd 1%N (created_client cfg_u1 cb7 ctx9) world0)
  /\ do_calls 1%N
       [Login None (Some "u0"); Connect; Login (Some "tok") (Some "u1");
        SendPeer (Some "peer42") (Some "ping"); JoinChannel (Some "c1")]
       (upd 1%N (created_client cfg_u1 cb7 ctx9) world0)
     = Some ([-1; 0; 0; 0; 0],
             upd 1%N client_joined (logged (mkDelivery cb7 "peer42" "ping" ctx9)
                                      world0))
  /\ Sim.atem_rtm_publish_channel 1%N (Some "x")
       (upd 1%N client_joined (logged (mkDelivery cb7 "peer42" "ping" ctx9)
                                 world0))
     = Some (0, logged (mkDelivery cb7 "u1" "x" ctx9)
                  (upd 1%N client_joined
                     (logged (mkDelivery cb7 "peer42" "ping" ctx9) world0)))
  /\ in_order [DidConnect; DidLogin; DidJoin]
       [Login None (Some "u0"); Connect; Login (Some "tok") (Some "u1");
        SendPeer (Some "peer42") (Some "ping"); JoinChannel (Some "c1")]
     = true.
Proof.
  assert (H1 : Sim.atem_rtm_create (Some cfg_u1) cb7 ctx9 world0
               = Some (1%N, upd 1%N (created_client cfg_u1 cb7 ctx9) world0))
    by (vm_compute; reflexivity).
  assert (H2 :
    do_calls 1%N
      [Login None (Some "u0"); Connect; Login (Some "tok") (Some "u1");
       SendPeer (Some "peer42") (Some "ping"); JoinChannel (Some "c1")]
      (upd 1%N (created_client cfg_u1 cb7 ctx9) world0)
    = Some ([-1; 0; 0; 0; 0],
            upd 1%N client_joined (logged (mkDelivery cb7 "peer42" "ping" ctx9)
                                     world0)))
    by (vm_compute; reflexivity).
  assert (H3 :
    Sim.atem_rtm_publish_channel 1%N (Some "x")
      (upd 1%N client_joined (logged (mkDelivery cb7 "peer42" "ping" ctx9)
                                world0))
    = Some (0, logged (mkDelivery cb7 "u1" "x" ctx9)
                 (upd 1%N client_joined
                    (logged (mkDelivery cb7 "peer42" "ping" ctx9) world0))))
    by (vm_compute; reflexivity).
  split; [exact H1|]. split; [exact H2|]. split; [exact H3|].
  exact (proj1 (sim_accepted_send_has_history _ _ _ _ _ _ _ _ _ H1 H2)
           _ _ H3).
Defined.

Lemma destroy_live (w : Sim.world) p c :
  live w p c ->
  Sim.atem_rtm_destroy p w
  = Some (tt, {| heap := delete p (heap w); trace := trace w |}).
Proof.
  intros [Hp Hc]. apply is_null_false in Hp.
  unfold Sim.atem_rtm_destroy, delete_obj. by rewrite Hp, Hc.
Qed.

(** X11.  Create and destroy undo each other on the heap.  Whatever calls
    are made on a created client in between, [atem_rtm_destroy] then returns
    with the heap exactly as it was before the create: the client is gone,
    nothing else has moved.  Destroy itself delivers nothing. *)
Theorem sim_create_destroy_restores_heap
    (cfg : AtemRtmConfig) (cb ctx : N) (w : Sim.world) (ks : list call) :
  exists p w0 rs w1 w2,
    Sim.atem_rtm_create (Some cfg) cb ctx w = Some (p, w0)
    /\ do_calls p ks w0 = Some (rs, w1)
    /\ Sim.atem_rtm_destroy p w1 = Some (tt, w2)
    /\ heap w2 = heap w
    /\ trace w2 = trace w1.
Proof.
  destruct (create_live cfg cb ctx w) as (p & Hcreate & Hp & Hfree).
  pose proof (create_Some _ _ _ _ _ _ Hcreate) as [_ Hl0].
  destruct (do_calls_steps p ks _ _ Hl0)
    as (rs & w1 & c1 & ds & Hrun & Hl1 & _).
  eexists p, _, rs, w1, _.
  split; [exact Hcreate|]. split; [exact Hrun|].
  split; [exact (destroy_live _ _ _ Hl1)|]. split; [|reflexivity].
  simpl. apply map_eq. intros q. destruct (decide (q = p)) as [->|Hq].
  - by rewrite lookup_delete_eq, Hfree.
  - rewrite lookup_delete_ne by done.
    rewrite (do_calls_frame _ _ _ _ _ _ Hl0 Hrun q Hq).
    by apply heap_upd_ne.
Qed.

(** ** Further properties of the vendor-backed adapter *)

Section RealReady.
Variables (w : Real.world) (p : N) (c : Real.AtemRtmClient).
Hypothesis Hready : ready w p c.

Lemma real_publish_ready body :
  Real.atem_rtm_publish_channel p (Some body) w =
  Some (0, logged (Real.SdkPublish (Real.rtm_client c) (Real.channel c) body
                     (Real.strlen body)
                     (Real.mkPublishOptions Real.RTM_CHANNEL_TYPE_MESSAGE
                        Real.RTM_MESSAGE_TYPE_STRING)) w).
Proof.
  destruct Hready as (Hp & Hc & Hsdk).
  apply is_null_false in Hp. apply is_null_false in Hsdk.
  unfold Real.atem_rtm_publish_channel. rewrite Hp. run. by rewrite Hsdk.
Qed.

Lemma real_send_peer_ready target body :
  Real.atem_rtm_send_peer p (Some target) (Some body) w =
  Some (0, logged (Real.SdkPublish (Real.rtm_client c) target body
                     (Real.strlen body)
                     (Real.mkPublishOptions Real.RTM_CHANNEL_TYPE_USER
                        Real.RTM_MESSAGE_TYPE_STRING)) w).
Proof.
  destruct Hready as (Hp & Hc & Hsdk).
  apply is_null_false in Hp. apply is_null_false in Hsdk.
  unfold Real.atem_rtm_send_peer. rewrite Hp. run. by rewrite Hsdk.
Qed.

Lemma real_login_ready token_ user_id_ :
  Real.atem_rtm_login p token_ user_id_ w =
  Some (0, logged (Real.SdkLogin (Real.rtm_client c)
                     (if Real.nonempty token_ then copy_or_empty token_
                      else Real.token c)) w).
Proof.
  destruct Hready as (Hp & Hc & Hsdk).
  apply is_null_false in Hp. apply is_null_false in Hsdk.
  unfold Real.atem_rtm_login. rewrite Hp. run. by rewrite Hsdk.
Qed.

Lemma real_destroy_ready :
  Real.atem_rtm_destroy p w =
  Some (tt,
        {| heap := delete p (heap w);
           trace :=
             (trace w ++ [Real.SdkRelease (Real.rtm_client c)])%list |}).
Proof.
  destruct Hready as (Hp & Hc & Hsdk).
  apply is_null_false in Hp. apply is_null_false in Hsdk.
  unfold Real.atem_rtm_destroy. rewrite Hp. run. rewrite Hsdk. simpl.
  unfold bind, emit, modify, delete_obj, logged, upd; simpl.
  rewrite Hc; simpl. rewrite lookup_insert_eq. by rewrite delete_insert_eq.
Qed.

(** The three outcomes of an adapter call on a ready handle: turned away
    for a null argument, with nothing changed; a connect, accepted with
    nothing done; any other call, accepted with one request to the SDK. *)
Lemma real_do_call_ready k :
  (Real.has_null_argument k = true /\ Real.do_call p k w = Some (-1, w))
  \/ (k = Real.Connect /\ Real.do_call p k w = Some (0, w))
  \/ (Real.has_null_argument k = false /\ k <> Real.Connect
      /\ exists e, Real.do_call p k w = Some (0, logged e w)).
Proof.
  destruct Hready as (Hp & Hc & Hsdk).
  apply is_null_false in Hp. apply is_null_false in Hsdk.
  destruct k as [| | t u | [ch|] | [body|] | [target|] [body|] | [t|]
                | [ch|] [topic|]];
    simpl;
    unfold Real.atem_rtm_connect, Real.atem_rtm_disconnect,
      Real.atem_rtm_login, Real.atem_rtm_join_channel,
      Real.atem_rtm_publish_channel, Real.atem_rtm_send_peer,
      Real.atem_rtm_set_token, Real.atem_rtm_subscribe_topic;
    rewrite Hp; run; rewrite ?Hsdk;
    first [ by left | by right; left
          | right; right; split_and!; [done | done | by eexists] ].
Qed.
End RealReady.

(** X12.  A null handle is turned away by every call of the adapter: each
    returns -1 and asks nothing of the SDK, destroy does nothing, and a
    create without a configuration returns null. *)
Theorem real_null_handle_rejected
    (w : Real.world) (k : Real.call) (cb ctx : N) (created : N * Z) :
  Real.do_call nullptr k w = Some (-1, w)
  /\ Real.atem_rtm_destroy nullptr w = Some (tt, w)
  /\ Real.atem_rtm_create None cb ctx created w = Some (nullptr, w).
Proof. by destruct k. Qed.

(** The adapter's create when the SDK factory is reached. *)
Lemma real_create_reached
    (cfg : AtemRtmConfig) (app id : string) (cb ctx sdk : N) (err : Z)
    (w : Real.world) :
  cfg_app_id cfg = Some app ->
  cfg_client_id cfg = Some id ->
  exists p,
    p <> nullptr /\ heap w !! p = None
    /\ Real.atem_rtm_create (Some cfg) cb ctx (sdk, err) w =
       if is_null sdk || negb (Z.eqb err 0) then
         Some (nullptr,
               {| heap :=
                    delete p
                      (heap (upd p (real_created_client cfg app id cb ctx sdk)
                               w));
                  trace := trace w |})
       else Some (p, upd p (real_created_client cfg app id cb ctx sdk) w).
Proof.
  intros Happ Hid.
  destruct (new_fresh Real.fresh_client w) as (p & Hnew & Hp & Hfree).
  exists p. split; [done|]. split; [done|].
  unfold Real.atem_rtm_create. rewrite Happ, Hid.
  rewrite (bind_Some _ _ _ _ _ Hnew). run. simpl.
  destruct (is_null sdk || negb (Z.eqb err 0)); [|reflexivity].
  unfold bind, delete_obj, ret. by rewrite heap_upd.
Qed.


(** On a ready handle a run of adapter calls returns, call by call, -1 for
    a null argument and 0 otherwise; the client object is never written. *)
Lemma real_do_calls_ready p c ks : forall (w : Real.world),
  ready w p c ->
  exists w' es,
    Real.do_calls p ks w
    = Some (map real_code ks, w')
    /\ heap w' = heap w
    /\ trace w' = (trace w ++ es)%list.
Proof.
  induction ks as [|k ks IH]; intros w Hr.
  - exists w, []. by rewrite app_nil_r.
  - assert (Hstep : exists w1 es1,
              Real.do_call p k w = Some (real_code k, w1)
              /\ heap w1 = heap w /\ trace w1 = (trace w ++ es1)%list).
    { destruct (real_do_call_ready w p c Hr k)
        as [[Hn ->]|[[-> ->]|(Hn & _ & e & ->)]].
      - unfold real_code. rewrite Hn. exists w, []. by rewrite app_nil_r.
      - exists w, []. by rewrite app_nil_r.
      - unfold real_code. rewrite Hn. by exists (logged e w), [e]. }
    destruct Hstep as (w1 & es1 & Hk & Hh1 & Ht1).
    assert (Hr1 : ready w1 p c).
    { destruct Hr as (Hp & Hc & Hsdk). split_and!; try done. by rewrite Hh1. }
    destruct (IH w1 Hr1) as (w2 & es2 & Hrest & Hh2 & Ht2).
    exists w2, (es1 ++ es2)%list. split_and!.
    + simpl. rewrite (bind_Some _ _ _ _ _ Hk).
      by rewrite (bind_Some _ _ _ _ _ Hrest).
    + congruence.
    + by rewrite Ht2, Ht1, app_assoc.
Qed.

(** X14.  The adapter keeps no connection state.  On a handle whose client
    holds an SDK client, every call of a run returns -1 if one of the
    strings it checks is null and 0 otherwise, whatever was called before:
    a publish before any login or join is accepted like one after.  The
    client objects are never written, and the requests made so far stay in
    the trace. *)
Theorem real_calls_are_stateless
    (w : Real.world) (p : N) (c : Real.AtemRtmClient) (ks : list Real.call) :
  ready w p c ->
  exists w' es,
    Real.do_calls p ks w
    = Some (map real_code ks, w')
    /\ heap w' = heap w
    /\ trace w' = (trace w ++ es)%list.
Proof. apply real_do_calls_ready. Qed.

Lemma real_calls_are_stateless_witness :
  ready real_world_ready 1%N
    (real_created_client cfg_u1_token "A" "u1" cb7 ctx9 sdk5)
  /\ exists w' es,
       Real.do_calls 1%N
         [Real.PublishChannel (Some "x"); Real.JoinChannel None;
          Real.Login None None; Real.PublishChannel (Some "y")]
         real_world_ready
       = Some ([0; -1; 0; 0], w')
       /\ heap w' = heap real_world_ready
       /\ trace w' = (trace real_world_ready ++ es)%list.
Proof.
  assert (Hr : ready real_world_ready 1%N
                 (real_created_client cfg_u1_token "A" "u1" cb7 ctx9 sdk5)).
  { split_and!; [discriminate | vm_compute; reflexivity | discriminate]. }
  split; [exact Hr|].
  exact (real_calls_are_stateless real_world_ready 1%N _
           [Real.PublishChannel (Some "x"); Real.JoinChannel None;
            Real.Login None None; Real.PublishChannel (Some "y")] Hr).
Defined.

(** After a successful create and any calls, the adapter's client is still
    the one created. *)
Lemma real_created_run
    (cfg : AtemRtmConfig) (app id : string) (cb ctx sdk : N)
    (w : Real.world) (ks : list Real.call) :
  cfg_app_id cfg = Some app ->
  cfg_client_id cfg = Some id ->
  sdk <> nullptr ->
  exists p w0 w1 es,
    Real.atem_rtm_create (Some cfg) cb ctx (sdk, 0) w = Some (p, w0)
    /\ Real.do_calls p ks w0 = Some (map real_code ks, w1)
    /\ ready w1 p (real_created_client cfg app id cb ctx sdk)
    /\ heap w !! p = None
    /\ heap w1 = <[p := real_created_client cfg app id cb ctx sdk]> (heap w)
    /\ trace w1 = (trace w ++ es)%list.
Proof.
  intros Happ Hid Hsdk.
  destruct (real_create_reached cfg app id cb ctx sdk 0 w Happ Hid)
    as (p & Hp & Hfree & Hcreate).
  assert (Hcond : is_null sdk || negb (Z.eqb 0 0) = false).
  { apply is_null_false in Hsdk. by rewrite Hsdk. }
  rewrite Hcond in Hcreate.
  assert (Hr : ready (upd p (real_created_client cfg app id cb ctx sdk) w) p
                 (real_created_client cfg app id cb ctx sdk)).
  { split_and!; [done | apply heap_upd | done]. }
  destruct (real_do_calls_ready p _ ks _ Hr) as (w1 & es & Hrun & Hh & Ht).
  eexists p, _, w1, es. split; [exact Hcreate|]. split; [exact Hrun|].
  split_and!; try done.
  destruct Hr as (? & Hc & ?). split_and!; try done. by rewrite Hh.
Qed.

(** X15.  Where the adapter's sends go.  After a successful create and any
    calls (joins of other channels included), a publish asks the SDK to
    publish the payload, with its length, as a string message on the channel
    of the configuration (the empty name if it had none); a send asks it to
    publish to the target on the user channel type. *)
Theorem real_sends_are_addressed
    (cfg : AtemRtmConfig) (app id : string) (cb ctx sdk : N)
    (w : Real.world) (ks : list Real.call) :
  cfg_app_id cfg = Some app ->
  cfg_client_id cfg = Some id ->
  sdk <> nullptr ->
  exists p w0 rs w1,
    Real.atem_rtm_create (Some cfg) cb ctx (sdk, 0) w = Some (p, w0)
    /\ Real.do_calls p ks w0 = Some (rs, w1)
    /\ (forall body,
          Real.atem_rtm_publish_channel p (Some body) w1
          = Some (0, logged
                       (Real.SdkPublish sdk (copy_or_empty (cfg_channel cfg))
                          body (N.of_nat (String.length body))
                          (Real.mkPublishOptions Real.RTM_CHANNEL_TYPE_MESSAGE
                             Real.RTM_MESSAGE_TYPE_STRING)) w1))
    /\ (forall target body,
          Real.atem_rtm_send_peer p (Some target) (Some body) w1
          = Some (0, logged
                       (Real.SdkPublish sdk target body
                          (N.of_nat (String.length body))
                          (Real.mkPublishOptions Real.RTM_CHANNEL_TYPE_USER
                             Real.RTM_MESSAGE_TYPE_STRING)) w1)).
Proof.
  intros Happ Hid Hsdk.
  destruct (real_created_run cfg app id cb ctx sdk w ks Happ Hid Hsdk)
    as (p & w0 & w1 & es & Hcreate & Hrun & Hr & _).
  exists p, w0, (map real_code ks), w1. split; [done|]. split; [done|]. split.
  - intros body. exact (real_publish_ready _ _ _ Hr body).
  - intros target body. exact (real_send_peer_ready _ _ _ Hr target body).
Qed.

Lemma real_sends_are_addressed_witness :
  cfg_app_id cfg_u1 = Some "A"
  /\ cfg_client_id cfg_u1 = Some "u1"
  /\ sdk5 <> nullptr
  /\ exists p w0 rs w1,
       Real.atem_rtm_create (Some cfg_u1) cb7 ctx9 (sdk5, 0) real_world0
       = Some (p, w0)
       /\ Real.do_calls p [Real.JoinChannel (Some "room2")] w0 = Some (rs, w1)
       /\ (forall body,
             Real.atem_rtm_publish_channel p (Some body) w1
             = Some (0, logged
                          (Real.SdkPublish sdk5 "c1" body
                             (N.of_nat (String.length body))
                             (Real.mkPublishOptions
                                Real.RTM_CHANNEL_TYPE_MESSAGE
                                Real.RTM_MESSAGE_TYPE_STRING)) w1))
       /\ (forall target body,
             Real.atem_rtm_send_peer p (Some target) (Some body) w1
             = Some (0, logged
                          (Real.SdkPublish sdk5 target body
                             (N.of_nat (String.length body))
                             (Real.mkPublishOptions Real.RTM_CHANNEL_TYPE_USER
                                Real.RTM_MESSAGE_TYPE_STRING)) w1)).
Proof.
  split; [reflexivity|]. split; [reflexivity|]. split; [discriminate|].
  apply (real_sends_are_addressed cfg_u1 "A" "u1" cb7 ctx9 sdk5 real_world0
           [Real.JoinChannel (Some "room2")]);
    [reflexivity | reflexivity | discriminate].
Defined.

(** X16.  Which token the adapter logs in with.  After a successful create
    and any calls (token renewals included), a login passes the SDK the
    token given, if it is neither null nor empty, and otherwise the token of
    the configuration as it was at create (the empty string if it had none).
    The participant id passed to login plays no part. *)
Theorem real_login_token
    (cfg : AtemRtmConfig) (app id : string) (cb ctx sdk : N)
    (w : Real.world) (ks : list Real.call) :
  cfg_app_id cfg = Some app ->
  cfg_client_id cfg = Some id ->
  sdk <> nullptr ->
  exists p w0 rs w1,
    Real.atem_rtm_create (Some cfg) cb ctx (sdk, 0) w = Some (p, w0)
    /\ Real.do_calls p ks w0 = Some (rs, w1)
    /\ forall token_ user_id_,
         Real.atem_rtm_login p token_ user_id_ w1
         = Some (0, logged
                      (Real.SdkLogin sdk
                         (match token_ with
                          | Some (String a s) => String a s
                          | _ => copy_or_empty (cfg_token cfg)
                          end)) w1).
Proof.
  intros Happ Hid Hsdk.
  destruct (real_created_run cfg app id cb ctx sdk w ks Happ Hid Hsdk)
    as (p & w0 & w1 & es & Hcreate & Hrun & Hr & _).
  exists p, w0, (map real_code ks), w1. split; [done|]. split; [done|].
  intros token_ user_id_. rewrite (real_login_ready _ _ _ Hr).
  by destruct token_ as [[|a s]|].
Qed.

Lemma real_login_token_witness :
  cfg_app_id cfg_u1_token = Some "A"
  /\ cfg_client_id cfg_u1_token = Some "u1"
  /\ sdk5 <> nullptr
  /\ exists p w0 rs w1,
       Real.atem_rtm_create (Some cfg_u1_token) cb7 ctx9 (sdk5, 0) real_world0
       = Some (p, w0)
       /\ Real.do_calls p [Real.SetToken (Some "newtok")] w0 = Some (rs, w1)
       /\ forall token_ user_id_,
            Real.atem_rtm_login p token_ user_id_ w1
            = Some (0, logged
                         (Real.SdkLogin sdk5
                            (match token_ with
                             | Some (String a s) => String a s
                             | _ => "cfgtok"
                             end)) w1).
Proof.
  split; [reflexivity|]. split; [reflexivity|]. split; [discriminate|].
  apply (real_login_token cfg_u1_token "A" "u1" cb7 ctx9 sdk5 real_world0
           [Real.SetToken (Some "newtok")]);
    [reflexivity | reflexivity | discriminate].
Defined.

(** X17.  The adapter's destroy releases the SDK client once and frees the
    client object: after a successful create and any calls, destroy appends
    one release of the SDK client to the trace and leaves the heap exactly
    as it was before the create. *)
Theorem real_destroy_releases_once
    (cfg : AtemRtmConfig) (app id : string) (cb ctx sdk : N)
    (w : Real.world) (ks : list Real.call) :
  cfg_app_id cfg = Some app ->
  cfg_client_id cfg = Some id ->
  sdk <> nullptr ->
  exists p w0 rs w1 w2,
    Real.atem_rtm_create (Some cfg) cb ctx (sdk, 0) w = Some (p, w0)
    /\ Real.do_calls p ks w0 = Some (rs, w1)
    /\ Real.atem_rtm_destroy p w1 = Some (tt, w2)
    /\ heap w2 = heap w
    /\ trace w2 = (trace w1 ++ [Real.SdkRelease sdk])%list.
Proof.
  intros Happ Hid Hsdk.
  destruct (real_created_run cfg app id cb ctx sdk w ks Happ Hid Hsdk)
    as (p & w0 & w1 & es & Hcreate & Hrun & Hr & Hfree & Hh & _).
  eexists p, w0, (map real_code ks), w1, _. split; [done|]. split; [done|].
  split; [exact (real_destroy_ready _ _ _ Hr)|]. split; [|reflexivity].
  simpl. rewrite Hh. by apply delete_insert_id.
Qed.

Lemma real_destroy_releases_once_witness :
  cfg_app_id cfg_u1 = Some "A"
  /\ cfg_client_id cfg_u1 = Some "u1"
  /\ sdk5 <> nullptr
  /\ exists p w0 rs w1 w2,
       Real.atem_rtm_create (Some cfg_u1) cb7 ctx9 (sdk5, 0) real_world0
       = Some (p, w0)
       /\ Real.do_calls p [Real.Login None None; Real.Disconnect] w0
          = Some (rs, w1)
       /\ Real.atem_rtm_destroy p w1 = Some (tt, w2)
       /\ heap w2 = heap real_world0
       /\ trace w2 = (trace w1 ++ [Real.SdkRelease sdk5])%list.
Proof.
  split; [reflexivity|]. split; [reflexivity|]. split; [discriminate|].
  apply (real_destroy_releases_once cfg_u1 "A" "u1" cb7 ctx9 sdk5 real_world0
           [Real.Login None None; Real.Disconnect]);
    [reflexivity | reflexivity | discriminate].
Defined.

(** X18.  The adapter's inbound path.  After a successful create and any
    calls, a message event from the SDK calls the callback registered at
    create once, with the registered context, the publisher as sender and
    the message as payload, a null publisher or message passed on as the
    empty string; if no callback was registered the event is dropped.  The
    client objects are not written. *)
Theorem real_message_event_delivery
    (cfg : AtemRtmConfig) (app id : string) (cb ctx sdk : N)
    (w : Real.world) (ks : list Real.call) :
  cfg_app_id cfg = Some app ->
  cfg_client_id cfg = Some id ->
  sdk <> nullptr ->
  exists p w0 rs w1,
    Real.atem_rtm_create (Some cfg) cb ctx (sdk, 0) w = Some (p, w0)
    /\ Real.do_calls p ks w0 = Some (rs, w1)
    /\ forall publisher message,
         Real.onMessageEvent p publisher message w1
         = Some (tt,
                 if is_null cb then w1
                 else logged
                        (Real.Callback
                           (mkDelivery cb
                              (match publisher with
                               | Some s => s
                               | None => EmptyString
                               end)
                              (match message with
                               | Some s => s
                               | None => EmptyString
                               end)
                              ctx)) w1).
Proof.
  intros Happ Hid Hsdk.
  destruct (real_created_run cfg app id cb ctx sdk w ks Happ Hid Hsdk)
    as (p & w0 & w1 & es & Hcreate & Hrun & (Hp & Hc & _) & _).
  exists p, w0, (map real_code ks), w1. split; [done|]. split; [done|].
  intros publisher message. unfold Real.onMessageEvent. run. simpl.
  by destruct (is_null cb).
Qed.

Lemma real_message_event_delivery_witness :
  cfg_app_id cfg_u1 = Some "A"
  /\ cfg_client_id cfg_u1 = Some "u1"
  /\ sdk5 <> nullptr
  /\ exists p w0 rs w1,
       Real.atem_rtm_create (Some cfg_u1) cb7 ctx9 (sdk5, 0) real_world0
       = Some (p, w0)
       /\ Real.do_calls p [Real.JoinChannel (Some "c1")] w0 = Some (rs, w1)
       /\ forall publisher message,
            Real.onMessageEvent p publisher message w1
            = Some (tt,
                    logged
                      (Real.Callback
                         (mkDelivery cb7
                            (match publisher with
                             | Some s => s
                             | None => EmptyString
                             end)
                            (match message with
                             | Some s => s
                             | None => EmptyString
                             end)
                            ctx9)) w1).
Proof.
  split; [reflexivity|]. split; [reflexivity|]. split; [discriminate|].
  apply (real_message_event_delivery cfg_u1 "A" "u1" cb7 ctx9 sdk5 real_world0
           [Real.JoinChannel (Some "c1")]);
    [reflexivity | reflexivity | discriminate].
Defined.

(** ** The two backends side by side *)

(** X19.  The adapter is at least as permissive as the simulator: a call
    that the simulator accepts, in whatever state its client is, is accepted
    by the adapter on any handle that holds an SDK client.  (Not the other
    way round: the adapter accepts a publish that the simulator turns away
    for want of a join.) *)
Theorem real_accepts_what_sim_accepts
    (w w' : Sim.world) (p : N) (c : Sim.AtemRtmClient) (k : call)
    (rw : Real.world) (rp : N) (rc : Real.AtemRtmClient) :
  live w p c ->
  do_call p k w = Some (0, w') ->
  ready rw rp rc ->
  exists rw', Real.do_call rp (to_real k) rw = Some (0, rw').
Proof.
  intros Hl Hk Hr.
  assert (Hargs : Real.has_null_argument (to_real k) = false).
  { destruct k as [| | t u | ch | body | target body]; simpl in *; try done.
    - rewrite (join_channel_live _ _ _ Hl) in Hk.
      destruct ch; [done|]. by destruct (Sim.logged_in c).
    - rewrite (publish_channel_live _ _ _ Hl) in Hk.
      destruct body; [done|].
      by destruct (Sim.connected c && Sim.channel_joined c).
    - rewrite (send_peer_live _ _ _ Hl) in Hk.
      destruct target, body; try done; by destruct (Sim.connected c). }
  destruct (real_do_call_ready rw rp rc Hr (to_real k))
    as [[Hn _]|[[_ ->]|(_ & _ & e & ->)]]; [congruence | by eexists..].
Qed.

Lemma real_accepts_what_sim_accepts_witness :
  live world_joined 1%N client_joined
  /\ do_call 1%N (PublishChannel (Some "x")) world_joined
     = Some (0, logged (mkDelivery cb7 "u1" "x" ctx9) world_joined)
  /\ ready real_world_ready 1%N
       (real_created_client cfg_u1_token "A" "u1" cb7 ctx9 sdk5)
  /\ exists rw',
       Real.do_call 1%N (to_real (PublishChannel (Some "x"))) real_world_ready
       = Some (0, rw').
Proof.
  assert (Hl : live world_joined 1%N client_joined).
  { split; [discriminate | vm_compute; reflexivity]. }
  assert (Hk : do_call 1%N (PublishChannel (Some "x")) world_joined
               = Some (0, logged (mkDelivery cb7 "u1" "x" ctx9) world_joined))
    by (vm_compute; reflexivity).
  assert (Hr : ready real_world_ready 1%N
                 (real_created_client cfg_u1_token "A" "u1" cb7 ctx9 sdk5)).
  { split_and!; [discriminate | vm_compute; reflexivity | discriminate]. }
  split; [exact Hl|]. split; [exact Hk|]. split; [exact Hr|].
  exact (real_accepts_what_sim_accepts _ _ _ _ _ _ _ _ Hl Hk Hr).
Defined.
